(** * News feed scraper: the ingestion pipeline of [News_feed.py]

    A shallow embedding of the last [NewsScraper] class of the file (the
    definition Python keeps) together with the library calls it relies on,
    and the properties of the pipeline stated over that embedding.

    Strings are [string]: sequences of code points below 256.  The character
    classes of [str.isspace], [\s], [\w] and [\b] are the ones CPython uses
    on that range. *)

From Stdlib Require Import ZArith Ascii String List Bool Lia.
From stdpp Require Import base tactics option list gmap strings.

Local Open Scope Z_scope.

(* ===================================================================== *)
(** * Part I: definitions *)
(* ===================================================================== *)

(** ** Python built-ins on [str] *)

Module Py.

Definition code (c : ascii) : N := N_of_ascii c.

Definition between (lo hi : N) (c : ascii) : bool :=
  ((lo <=? code c) && (code c <=? hi))%N.

(** [str.isspace] on one character; the class [\s] of [re] is the same. *)
Definition isspace (c : ascii) : bool :=
  between 9 13 c || between 28 32 c || (code c =? 133)%N || (code c =? 160)%N.

(** The class [[A-Za-z]]. *)
Definition ascii_letter (c : ascii) : bool :=
  between 65 90 c || between 97 122 c.

(** [str.isalnum] on one character. *)
Definition isalnum (c : ascii) : bool :=
  between 48 57 c || ascii_letter c
  || (code c =? 170)%N || between 178 179 c || (code c =? 181)%N
  || between 185 186 c || between 188 190 c
  || between 192 214 c || between 216 246 c || between 248 255 c.

(** The class [\w] of [re]. *)
Definition is_word (c : ascii) : bool := isalnum c || (code c =? 95)%N.

(** Truth value of a string: [bool(s)]. *)
Definition truthy (s : string) : bool :=
  match s with EmptyString => false | String _ _ => true end.

(** [s.lstrip()] *)
Fixpoint lstrip (s : string) : string :=
  match s with
  | EmptyString => EmptyString
  | String c s' => if isspace c then lstrip s' else s
  end.

(** [s.rstrip()] *)
Fixpoint rstrip (s : string) : string :=
  match s with
  | EmptyString => EmptyString
  | String c s' =>
      match rstrip s' with
      | EmptyString => if isspace c then EmptyString else String c EmptyString
      | r => String c r
      end
  end.

(** [s.strip()] *)
Definition strip (s : string) : string := rstrip (lstrip s).

(** [s.split()]: the maximal runs of characters that are not whitespace.
    [word] is the run being read, in order. *)
Fixpoint split_from (word : string) (s : string) : list string :=
  match s with
  | EmptyString => if truthy word then [word] else []
  | String c s' =>
      if isspace c
      then (if truthy word then [word] else []) ++ split_from EmptyString s'
      else split_from (word +:+ String c EmptyString) s'
  end.

Definition split (s : string) : list string := split_from EmptyString s.

(** [sep.join(parts)] *)
Fixpoint join (sep : string) (parts : list string) : string :=
  match parts with
  | [] => EmptyString
  | [p] => p
  | p :: ps => p +:+ sep +:+ join sep ps
  end.

(** Exceptions that the modelled code can raise past its own handlers. *)
Inductive exn : Type :=
| KeyError (key : string)
| TypeError (msg : string).

Inductive result (A : Type) : Type :=
| Ok (a : A)
| Raise (e : exn).
Arguments Ok {A} a.
Arguments Raise {A} e.

End Py.

(** ** Regular expressions of [clean_date_string] *)

Module Re.
Import Py.

(** Greedy [[A-Za-z]{0,n}]: the number of letters taken and the rest. *)
Fixpoint letters_upto (n : nat) (s : string) : nat * string :=
  match n, s with
  | S n', String c s' =>
      if ascii_letter c
      then let '(k, rest) := letters_upto n' s' in (S k, rest)
      else (O, s)
  | _, _ => (O, s)
  end.

(** [re.sub(r'^[A-Za-z]{2,9},\s*', '', s)].  The pattern is anchored at the
    start of the string, so it matches at most once.  The engine takes as
    many letters as it can, up to nine; when no comma follows, giving
    letters back leaves a letter where the comma is required, so the
    match fails. *)
Definition sub_weekday (s : string) : string :=
  let '(k, rest) := letters_upto 9 s in
  if (2 <=? k)%nat
  then match rest with
       | String c rest' => if (code c =? 44)%N then lstrip rest' else s
       | EmptyString => s
       end
  else s.

Definition tz_abbreviations : list string :=
  ["EST"; "EDT"; "CST"; "CDT"; "MST"; "MDT"; "PST"; "PDT"].

(** [\b] between two neighbours; [None] is an end of the string. *)
Definition word_at (c : option ascii) : bool :=
  match c with Some a => is_word a | None => false end.

Definition word_boundary (before after : option ascii) : bool :=
  xorb (word_at before) (word_at after).

Definition head (s : string) : option ascii :=
  match s with EmptyString => None | String c _ => Some c end.

Definition is_tz (c1 c2 c3 : ascii) : bool :=
  existsb (String.eqb (String c1 (String c2 (String c3 EmptyString))))
          tz_abbreviations.

(** Does [\b(?:EST|...|PDT)\b] match where [c1 c2 c3 rest] starts, after
    the character [prev]? *)
Definition tz_here (prev : option ascii) (c1 c2 c3 : ascii) (rest : string)
  : bool :=
  word_boundary prev (Some c1) && is_tz c1 c2 c3
  && word_boundary (Some c3) (head rest).

(** [re.sub(r'\b(?:EST|EDT|CST|CDT|MST|MDT|PST|PDT)\b', '', s)], scanning
    left to right: a match is dropped and the scan goes on after it, any
    other character is copied.  [prev] is the character before [s]. *)
Fixpoint sub_tz_from (prev : option ascii) (s : string) : string :=
  match s with
  | EmptyString => EmptyString
  | String c1 s1 =>
      match s1 with
      | String c2 (String c3 rest) =>
          if tz_here prev c1 c2 c3 rest
          then sub_tz_from (Some c3) rest
          else String c1 (sub_tz_from (Some c1) s1)
      | _ => String c1 (sub_tz_from (Some c1) s1)
      end
  end.

Definition sub_tz (s : string) : string := sub_tz_from None s.

End Re.

(** ** Date cleaning *)

Import Py.

(** [NewsScraper.clean_date_string]; [None] is Python's [None]. *)
Definition clean_date_string (date_str : string) : option string :=
  if negb (truthy date_str) then None
  else
    let date_str := Re.sub_weekday date_str in
    let date_str := Re.sub_tz date_str in
    let date_str := join " " (split date_str) in
    Some (strip date_str).

(** ** [datetime] *)

Module DateTime.

(** The [tzinfo] objects a parsed date can carry: [dateutil]'s [tzutc],
    [tzlocal] and [tzoffset], and the [timezone] that [strptime] builds
    for [%z].  Offsets are in seconds. *)
Inductive tzinfo : Type :=
| tzutc
| tzlocal
| tzoffset (name : option string) (offset : Z)
| timezone (offset : Z).

Global Instance tzinfo_eq_dec : EqDecision tzinfo.
Proof. solve_decision. Defined.

Record datetime : Type := mk_datetime {
  year : Z; month : Z; day : Z;
  hour : Z; minute : Z; second : Z; microsecond : Z;
  tz : option tzinfo
}.

(** [datetime(y, m, d)]: midnight, naive. *)
Definition date (y m d : Z) : datetime := mk_datetime y m d 0 0 0 0 None.

Definition replace_tzinfo (d : datetime) (t : option tzinfo) : datetime :=
  mk_datetime (year d) (month d) (day d)
              (hour d) (minute d) (second d) (microsecond d) t.

Definition is_leap (y : Z) : bool :=
  (y mod 4 =? 0) && (negb (y mod 100 =? 0) || (y mod 400 =? 0)).

Definition days_before_year (y : Z) : Z :=
  let y := y - 1 in y * 365 + y / 4 - y / 100 + y / 400.

Definition DAYS_BEFORE_MONTH : list Z :=
  [-1; 0; 31; 59; 90; 120; 151; 181; 212; 243; 273; 304; 334].

Definition days_before_month (y m : Z) : Z :=
  nth (Z.to_nat m) DAYS_BEFORE_MONTH 0
  + (if (2 <? m) && is_leap y then 1 else 0).

Definition ymd2ord (y m d : Z) : Z :=
  days_before_year y + days_before_month y m + d.

Definition toordinal (d : datetime) : Z := ymd2ord (year d) (month d) (day d).

(** A normalised [timedelta]: [0 <= seconds < 86400] and
    [0 <= microseconds < 10^6]; [days] carries the sign. *)
Record timedelta : Type := mk_timedelta {
  days : Z; seconds : Z; microseconds : Z
}.

Global Instance timedelta_eq_dec : EqDecision timedelta.
Proof. solve_decision. Defined.

Definition total_microseconds (d s us : Z) : Z :=
  (d * 86400 + s) * 1000000 + us.

(** [timedelta(d, s, us)] *)
Definition timedelta_of (d s us : Z) : timedelta :=
  let total := total_microseconds d s us in
  mk_timedelta (total / 86400000000)
               ((total mod 86400000000) / 1000000)
               (total mod 1000000).

Definition timedelta_add (a b : timedelta) : timedelta :=
  timedelta_of (days a + days b) (seconds a + seconds b)
               (microseconds a + microseconds b).

Definition timedelta_sub (a b : timedelta) : timedelta :=
  timedelta_of (days a - days b) (seconds a - seconds b)
               (microseconds a - microseconds b).

(** [d.utcoffset()]; [local] is the offset of the machine's zone at a
    given wall-clock time. *)
Definition utcoffset (local : datetime -> Z) (d : datetime)
  : option timedelta :=
  match tz d with
  | None => None
  | Some tzutc => Some (timedelta_of 0 0 0)
  | Some tzlocal => Some (timedelta_of 0 (local d) 0)
  | Some (tzoffset _ s) => Some (timedelta_of 0 s 0)
  | Some (timezone s) => Some (timedelta_of 0 s 0)
  end.

(** [a - b] on two datetimes ([datetime.__sub__]). *)
Definition datetime_sub (local : datetime -> Z) (a b : datetime)
  : result timedelta :=
  let days1 := toordinal a in
  let days2 := toordinal b in
  let secs1 := second a + minute a * 60 + hour a * 3600 in
  let secs2 := second b + minute b * 60 + hour b * 3600 in
  let base := timedelta_of (days1 - days2) (secs1 - secs2)
                           (microsecond a - microsecond b) in
  if bool_decide (tz a = tz b) then Ok base
  else
    let myoff := utcoffset local a in
    let otoff := utcoffset local b in
    if bool_decide (myoff = otoff) then Ok base
    else match myoff, otoff with
         | Some myoff, Some otoff =>
             Ok (timedelta_sub (timedelta_add base otoff) myoff)
         | _, _ => Raise (TypeError "cannot mix naive and timezone-aware time")
         end.

End DateTime.

Import DateTime.

(** ** The collaborators outside the program *)

(** An XML document as [BeautifulSoup(..., features="xml")] hands it over. *)
#[warnings="-register-all"]
Inductive Node : Type :=
| NavigableString (text : string)
| Tag (name : string) (attrs : list (string * string)) (contents : list Node).

(** What the scraper asks of its libraries and of the network.  A call that
    raises inside one of the program's handlers is [None]. *)
Class World : Type := {
  (** [dateutil.parser.parse] *)
  parser_parse : string -> option datetime;
  (** [datetime.strptime(text, fmt)] *)
  strptime : string -> string -> option datetime;
  (** the wall clock read in a zone, or in the machine's zone for [None] *)
  wall_clock : option tzinfo -> datetime;
  (** offset of the machine's zone, in seconds *)
  local_utcoffset : datetime -> Z;
  (** [langdetect.detect] *)
  detect : string -> option string;
  (** status code of [requests.get(url, timeout=10)] *)
  url_status : string -> option nat;
  (** [requests.get(url)] parsed as XML *)
  fetch_soup : string -> option (list Node)
}.

(** [datetime.now(tz)] *)
Definition datetime_now `{World} (t : option tzinfo) : datetime :=
  replace_tzinfo (wall_clock t) t.

(** ** The date normalizer *)

Definition date_formats : list string :=
  [ "%a, %d %b %Y %H:%M:%S %z";
    "%a, %d %b %Y %H:%M:%S %Z";
    "%Y-%m-%dT%H:%M:%S%z";
    "%Y-%m-%d %H:%M:%S";
    "%d %b %Y %H:%M:%S";
    "%a, %d %b %Y %H:%M:%S";
    "%Y-%m-%d";
    "%b %d, %Y %H:%M:%S";
    "%d-%m-%Y %H:%M:%S";
    "%m/%d/%Y %H:%M:%S";
    "%Y%m%d" ].

(** One parsing attempt, for the record of what was tried. *)
Inductive attempt : Type :=
| Flexible
| Pattern (fmt : string).

Global Instance attempt_eq_dec : EqDecision attempt.
Proof. solve_decision. Defined.

(** The [for fmt in date_formats] loop: the parsed date, and the formats
    handed to [strptime], in order. *)
Fixpoint try_formats `{World} (fmts : list string) (cleaned_date : string)
  : option datetime * list attempt :=
  match fmts with
  | [] => (None, [])
  | fmt :: fmts' =>
      match strptime cleaned_date fmt with
      | Some d => (Some d, [Pattern fmt])
      | None =>
          let '(r, tried) := try_formats fmts' cleaned_date in
          (r, Pattern fmt :: tried)
      end
  end.

(** The two parsing stages of [calculate_duration]. *)
Definition parse_published `{World} (cleaned_date : string)
  : option datetime * list attempt :=
  match parser_parse cleaned_date with
  | Some d => (Some d, [Flexible])
  | None =>
      let '(r, tried) := try_formats date_formats cleaned_date in
      (r, Flexible :: tried)
  end.

(** The [if]/[elif] chain on [delta.days]. *)
Definition bucket (d : Z) : string :=
  if d =? 0 then "Today"
  else if d <=? 7 then "This Week"
  else if d <=? 30 then "This Month"
  else if d <=? 365 then "1 Year Ago"
  else if d <=? 730 then "2 Years Ago"
  else "Older".

(** [now - pub_date] as [calculate_duration] computes it. *)
Definition elapsed `{World} (pub_date : datetime) : result timedelta :=
  let now := match tz pub_date with
             | Some t => datetime_now (Some t)
             | None => datetime_now None
             end in
  datetime_sub local_utcoffset now pub_date.

(** [NewsScraper.calculate_duration] *)
Definition calculate_duration `{World} (published_date : string)
  : result string :=
  if negb (truthy published_date) then Ok "Unknown"
  else
    match clean_date_string published_date with
    | None => Ok "Unknown"
    | Some cleaned_date =>
        if negb (truthy cleaned_date) then Ok "Unknown"
        else
          match fst (parse_published cleaned_date) with
          | None => Ok "Unknown"
          | Some pub_date =>
              match elapsed pub_date with
              | Raise e => Raise e
              | Ok delta => Ok (bucket (days delta))
              end
          end
    end.

(** The date that [calculate_duration] parses out of a raw string, if any. *)
Definition parsed_date `{World} (published_date : string) : option datetime :=
  match clean_date_string published_date with
  | Some cleaned_date =>
      if truthy cleaned_date then fst (parse_published cleaned_date) else None
  | None => None
  end.

(** Microseconds on the calendar of a datetime's own clock. *)
Definition instant (d : datetime) : Z :=
  ((toordinal d * 86400 + hour d * 3600 + minute d * 60 + second d) * 1000000
   + microsecond d).

(** Whole elapsed days between two readings: the floor of the difference. *)
Definition whole_days (now pub_date : datetime) : Z :=
  (instant now - instant pub_date) / 86400000000.

Definition labels : list string :=
  ["Today"; "This Week"; "This Month"; "1 Year Ago"; "2 Years Ago"; "Older";
   "Unknown"].

(** ** Summary cleaning *)

(** [BeautifulSoup(markup, "html.parser")] and [html.unescape], as far as
    [clean_summary] needs them.  The model follows the libraries on fragments
    made of text, tags that a [>] closes (with no [>] inside the tag) and
    well-formed references closed by [;]; the entity tables are excerpts, and
    a reference outside them is left as it is written. *)
Module Html.

Definition chr (n : N) : string := String (ascii_of_N n) EmptyString.

Definition snoc (s : string) (c : ascii) : string :=
  s +:+ String c EmptyString.

Fixpoint assoc (key : string) (table : list (string * string))
  : option string :=
  match table with
  | [] => None
  | (k, v) :: table' => if String.eqb key k then Some v else assoc key table'
  end.

(** Excerpt of [bs4.dammit.EntitySubstitution.HTML_ENTITY_TO_CHARACTER]. *)
Definition HTML_ENTITY_TO_CHARACTER : list (string * string) :=
  [("amp", "&"); ("lt", "<"); ("gt", ">"); ("quot", chr 34);
   ("nbsp", chr 160)].

(** Excerpt of [html.entities.html5]. *)
Definition html5 : list (string * string) :=
  [("amp;", "&"); ("amp", "&"); ("lt;", "<"); ("lt", "<");
   ("gt;", ">"); ("gt", ">"); ("quot;", chr 34); ("quot", chr 34);
   ("apos;", "'"); ("nbsp;", chr 160); ("nbsp", chr 160)].

Definition is_digit (c : ascii) : bool := between 48 57 c.

Definition is_hexdigit (c : ascii) : bool :=
  is_digit c || between 65 70 c || between 97 102 c.

Definition digit_value (c : ascii) : N :=
  if is_digit c then code c - 48
  else if between 65 70 c then code c - 55
  else code c - 87.

(** [int(digits, base)] *)
Fixpoint int_of (base : N) (acc : N) (digits : string) : N :=
  match digits with
  | EmptyString => acc
  | String c d => int_of base (acc * base + digit_value c)%N d
  end.

Fixpoint all_chars (p : ascii -> bool) (s : string) : bool :=
  match s with
  | EmptyString => true
  | String c s' => p c && all_chars p s'
  end.

(** The number a numeric reference body ([#39], [#x27]) denotes. *)
Definition charref_number (body : string) : option N :=
  match body with
  | String h digits =>
      if negb (code h =? 35)%N then None
      else match digits with
           | String x hex =>
               if ((code x =? 120) || (code x =? 88))%N
               then if truthy hex && all_chars is_hexdigit hex
                    then Some (int_of 16 0 hex) else None
               else if all_chars is_digit digits
                    then Some (int_of 10 0 digits) else None
           | EmptyString => None
           end
  | EmptyString => None
  end.

(** Printable ASCII, where every decoder agrees on [chr]. *)
Definition printable (n : N) : bool := ((32 <=? n) && (n <=? 126))%N.

(** What the tree builder appends for the reference [&body], closed by
    [;] or not ([handle_charref], [handle_entityref]).  A numeric reference
    that is not decoded stays as it is written; an unknown name loses its
    semicolon. *)
Definition builder_ref (body : string) (closed : bool) : string :=
  let written := "&" +:+ body +:+ (if closed then ";" else EmptyString) in
  match body with
  | String h _ =>
      if (code h =? 35)%N then
        match charref_number body with
        | Some n => if printable n then chr n else written
        | None => written
        end
      else
        match assoc body HTML_ENTITY_TO_CHARACTER with
        | Some character => character
        | None => "&" +:+ body
        end
  | EmptyString => written
  end.

(** Where the tokenizer is. [Ref body]: after [&], with the characters of
    the reference read so far. *)
Inductive mode : Type :=
| Text
| Markup
| Ref (body : string).

Definition opens_markup (next : option ascii) : bool :=
  match next with
  | Some c => ascii_letter c
              || (code c =? 47)%N || (code c =? 33)%N || (code c =? 63)%N
  | None => false
  end.

Definition opens_ref (next : option ascii) : bool :=
  match next with
  | Some c => ascii_letter c || (code c =? 35)%N
  | None => false
  end.

Definition ref_char (body : string) (c : ascii) : bool :=
  match body with
  | EmptyString => ascii_letter c || (code c =? 35)%N
  | String h _ =>
      if (code h =? 35)%N then is_hexdigit c || (code c =? 120)%N
                               || (code c =? 88)%N
      else ascii_letter c || is_digit c
  end.

Definition flush (data : string) : list string :=
  if truthy data then [data] else [].

(** One character in text: [data] is the text node being built. *)
Definition step_text (data : string) (c : ascii) (next : option ascii)
  : mode * string * list string :=
  if (code c =? 60)%N && opens_markup next then (Markup, data, [])
  else if (code c =? 38)%N && opens_ref next then (Ref EmptyString, data, [])
  else (Text, snoc data c, []).

(** One character of the fragment: the new mode, the text node being
    built, and the text nodes completed by this character. *)
Definition step (m : mode) (data : string) (c : ascii) (next : option ascii)
  : mode * string * list string :=
  match m with
  | Text => step_text data c next
  | Markup =>
      if (code c =? 62)%N then (Text, EmptyString, flush data)
      else (Markup, data, [])
  | Ref body =>
      if ref_char body c then (Ref (snoc body c), data, [])
      else if (code c =? 59)%N
           then (Text, data +:+ builder_ref body true, [])
      else step_text (data +:+ builder_ref body false) c next
  end.

(** The strings of the parsed fragment, in document order. *)
Fixpoint feed (m : mode) (data : string) (s : string) : list string :=
  match s with
  | EmptyString =>
      match m with
      | Text | Markup => flush data
      | Ref body => flush (data +:+ "&" +:+ body)
      end
  | String c s' =>
      let '(m', data', done) := step m data c (Re.head s') in
      done ++ feed m' data' s'
  end.

Definition soup_strings (markup : string) : list string :=
  feed Text EmptyString markup.

(** [soup.get_text(separator, strip=True)]: every string is stripped,
    the empty ones are skipped, the rest are joined. *)
Definition get_text (separator : string) (strings : list string) : string :=
  join separator (filter (fun t => truthy t = true) (strip <$> strings)).

(** The class [[^\t\n\f <&#;]] of [html.unescape]. *)
Definition name_char (c : ascii) : bool :=
  negb ((code c =? 9) || (code c =? 10) || (code c =? 12) || (code c =? 32)
        || (code c =? 60) || (code c =? 38) || (code c =? 35)
        || (code c =? 59))%N.

Fixpoint take_while (p : ascii -> bool) (n : nat) (s : string) : string :=
  match n, s with
  | S n', String c s' =>
      if p c then String c (take_while p n' s') else EmptyString
  | _, _ => EmptyString
  end.

Fixpoint drop (n : nat) (s : string) : string :=
  match n, s with
  | S n', String _ s' => drop n' s'
  | _, _ => s
  end.

Fixpoint take (n : nat) (s : string) : string :=
  match n, s with
  | S n', String c s' => String c (take n' s')
  | _, _ => EmptyString
  end.

Definition semicolon (s : string) : string :=
  match s with
  | String c _ => if (code c =? 59)%N then ";" else EmptyString
  | EmptyString => EmptyString
  end.

(** The text [_charref] matches after an [&], if any: one of
    [#[0-9]+;?], [#[xX][0-9a-fA-F]+;?], [[^\t\n\f <&#;]{1,32};?]. *)
Definition charref_match (s : string) : option string :=
  match s with
  | String h s1 =>
      if (code h =? 35)%N then
        let dec := take_while is_digit (String.length s1) s1 in
        if truthy dec
        then let m := String h dec in
             Some (m +:+ semicolon (drop (String.length m) s))
        else match s1 with
             | String x s2 =>
                 let hex := take_while is_hexdigit (String.length s2) s2 in
                 if ((code x =? 120) || (code x =? 88))%N && truthy hex
                 then let m := String h (String x hex) in
                      Some (m +:+ semicolon (drop (String.length m) s))
                 else None
             | EmptyString => None
             end
      else
        let name := take_while name_char 32 s in
        if truthy name
        then Some (name +:+ semicolon (drop (String.length name) s))
        else None
  | EmptyString => None
  end.

Definition rstrip_semicolon (s : string) : string :=
  match String.rev s with
  | String c r => if (code c =? 59)%N then String.rev r else s
  | EmptyString => s
  end.

(** The [for x in range(len(s)-1, 1, -1)] loop of [_replace_charref]:
    the longest proper prefix of [s], of two characters at least, that
    names an entity.  [x] counts down from [len(s)-1]. *)
Fixpoint longest_prefix (x : nat) (s : string) : option string :=
  match x with
  | O | 1%nat => None
  | S x' =>
      match assoc (take x s) html5 with
      | Some v => Some (v +:+ drop x s)
      | None => longest_prefix x' s
      end
  end.

(** [_replace_charref] on the matched text. *)
Definition replace_charref (s : string) : string :=
  match s with
  | String h _ =>
      if (code h =? 35)%N then
        match charref_number (rstrip_semicolon s) with
        | Some n => if printable n then chr n else "&" +:+ s
        | None => "&" +:+ s
        end
      else
        match assoc s html5 with
        | Some v => v
        | None =>
            match longest_prefix (String.length s - 1) s with
            | Some v => v
            | None => "&" +:+ s
            end
        end
  | EmptyString => "&"
  end.

(** [_charref.sub(_replace_charref, s)]; [skip] characters of the last
    match are still to be passed over. *)
Fixpoint charref_sub (skip : nat) (s : string) : string :=
  match s with
  | EmptyString => EmptyString
  | String c s' =>
      match skip with
      | S k => charref_sub k s'
      | O =>
          if (code c =? 38)%N then
            match charref_match s' with
            | Some m => replace_charref m +:+ charref_sub (String.length m) s'
            | None => String c (charref_sub O s')
            end
          else String c (charref_sub O s')
      end
  end.

Fixpoint contains (c : ascii) (s : string) : bool :=
  match s with
  | EmptyString => false
  | String a s' => (code a =? code c)%N || contains c s'
  end.

(** [html.unescape] *)
Definition unescape (s : string) : string :=
  if negb (contains "&" s) then s else charref_sub O s.

End Html.

(** [NewsScraper.clean_summary] *)
Definition clean_summary (summary : string) : string :=
  let soup := Html.soup_strings summary in
  let text := Html.get_text " " soup in
  Html.unescape text.

(** ** Feed documents *)

Module Soup.

Definition first_some {A B} (f : A -> option B) : list A -> option B :=
  fix go (l : list A) : option B :=
    match l with
    | [] => None
    | a :: l' => match f a with Some b => Some b | None => go l' end
    end.

(** [tag.text]: every string below the node, concatenated. *)
Fixpoint text (n : Node) : string :=
  match n with
  | NavigableString t => t
  | Tag _ _ contents =>
      (fix go (l : list Node) : string :=
         match l with
         | [] => EmptyString
         | c :: l' => text c +:+ go l'
         end) contents
  end.

(** The first tag called [name] at or below a node, in document order. *)
Fixpoint find_from (name : string) (n : Node) : option Node :=
  match n with
  | NavigableString _ => None
  | Tag nm _ contents =>
      if String.eqb nm name then Some n
      else first_some (find_from name) contents
  end.

(** [tag.find(name)]: searches below the tag. *)
Definition find (name : string) (t : Node) : option Node :=
  match t with
  | NavigableString _ => None
  | Tag _ _ contents => first_some (find_from name) contents
  end.

(** Every tag called [name] at or below a node, in document order. *)
Fixpoint find_all_from (name : string) (n : Node) : list Node :=
  match n with
  | NavigableString _ => []
  | Tag nm _ contents =>
      (if String.eqb nm name then [n] else [])
      ++ flat_map (find_all_from name) contents
  end.

(** [soup.find_all(name)] *)
Definition find_all (name : string) (soup : list Node) : list Node :=
  flat_map (find_all_from name) soup.

(** [tag[key]] when [tag.has_attr(key)]. *)
Definition attr (key : string) (t : Node) : option string :=
  match t with
  | NavigableString _ => None
  | Tag _ attrs _ => Html.assoc key attrs
  end.

(** [a or b] on two optional tags. *)
Definition or_else (a b : option Node) : option Node :=
  match a with Some _ => a | None => b end.

End Soup.

(** ** Records *)

(** An element of [RSS_FEEDS]. *)
Record Feed : Type := mk_feed {
  country : string;
  source : string;
  url : string
}.

(** The dictionary [parse_feed] appends for one article. *)
Record Entry : Type := mk_entry {
  Title : string;
  Summary : string;
  Published : string;
  Link : string;
  Source : string;
  Country : string;
  Language : string;
  Duration : string
}.

Global Instance Entry_eq_dec : EqDecision Entry.
Proof. solve_decision. Defined.

Definition entry_columns : list string :=
  ["Title"; "Summary"; "Published"; "Link"; "Source"; "Country"; "Language";
   "Duration"].

(** [entry[column]] *)
Definition entry_get (column : string) (e : Entry) : option string :=
  if String.eqb column "Title" then Some (Title e)
  else if String.eqb column "Summary" then Some (Summary e)
  else if String.eqb column "Published" then Some (Published e)
  else if String.eqb column "Link" then Some (Link e)
  else if String.eqb column "Source" then Some (Source e)
  else if String.eqb column "Country" then Some (Country e)
  else if String.eqb column "Language" then Some (Language e)
  else if String.eqb column "Duration" then Some (Duration e)
  else None.

(** ** Record assembly: [parse_feed] *)

(** The four fields read from an item. *)
Definition item_title (item : Node) : string :=
  let title_tag := Soup.find "title" item in
  match title_tag with
  | Some t => strip (Soup.text t)
  | None => EmptyString
  end.

Definition item_summary (item : Node) : string :=
  let summary_tag :=
    Soup.or_else (Soup.find "description" item)
      (Soup.or_else (Soup.find "summary" item) (Soup.find "content" item)) in
  match summary_tag with
  | Some t => clean_summary (Soup.text t)
  | None => EmptyString
  end.

Definition item_published (item : Node) : string :=
  let pub_date_tag :=
    Soup.or_else (Soup.find "pubDate" item)
      (Soup.or_else (Soup.find "updated" item) (Soup.find "date" item)) in
  match pub_date_tag with
  | Some t => strip (Soup.text t)
  | None => EmptyString
  end.

Definition item_link (item : Node) : string :=
  let link_tag := Soup.find "link" item in
  match link_tag with
  | Some t =>
      match Soup.attr "href" t with
      | Some href => href
      | None => strip (Soup.text t)
      end
  | None => EmptyString
  end.

(** The language of an item: [detect], or ["unknown"] when there is no text
    or [detect] raises. *)
Definition item_language `{World} (title summary : string) : string :=
  let text_for_lang := strip (title +:+ " " +:+ summary) in
  if truthy text_for_lang
  then match detect text_for_lang with
       | Some l => l
       | None => "unknown"
       end
  else "unknown".

(** The body of the [for item in items] loop: the entry to append, if any. *)
Definition parse_item `{World} (feed : Feed) (item : Node)
  : result (option Entry) :=
  let link := item_link item in
  let title := item_title item in
  let summary := item_summary item in
  let published := item_published item in
  match calculate_duration published with
  | Raise e => Raise e
  | Ok duration =>
      let language := item_language title summary in
      if truthy title && truthy link
      then Ok (Some (mk_entry title summary published link
                       (source feed) (country feed) language duration))
      else Ok None
  end.

(** The loop over the items: the entries appended so far and, when an item
    raised, the exception that ended the loop. *)
Fixpoint parse_items `{World} (feed : Feed) (items : list Node)
    (entries : list Entry) : list Entry * option exn :=
  match items with
  | [] => (entries, None)
  | item :: items' =>
      match parse_item feed item with
      | Raise e => (entries, Some e)
      | Ok None => parse_items feed items' entries
      | Ok (Some entry) => parse_items feed items' (entries ++ [entry])
      end
  end.

(** ** Data frames *)

(** A row of the frame: an entry and, once [save_to_csv] has added the
    column, its [NoOfArticles] ([None] inside [Some] is a missing value). *)
Record Row : Type := mk_row {
  entry : Entry;
  NoOfArticles : option (option nat)
}.

Record DataFrame : Type := mk_frame {
  columns : list string;
  rows : list Row
}.

(** [pd.DataFrame(entries)] for a list of dictionaries. *)
Definition DataFrame_of (entries : list Entry) : DataFrame :=
  match entries with
  | [] => mk_frame [] []
  | _ => mk_frame entry_columns ((fun e => mk_row e None) <$> entries)
  end.

(** [df.empty] *)
Definition df_empty (df : DataFrame) : bool :=
  match columns df, rows df with
  | [], _ | _, [] => true
  | _, _ => false
  end.

(** [df.to_dict("records")], read through the keys the program uses. *)
Definition to_dict_records (df : DataFrame) : list Entry := entry <$> rows df.

(** [df[column]] for a column of strings. *)
Definition getitem (df : DataFrame) (column : string) : result (list string) :=
  if bool_decide (column ∈ columns df)
  then Ok (omap (fun r => entry_get column (entry r)) (rows df))
  else Raise (KeyError column).

(** The values of a row in the columns of [subset]. *)
Definition subset_key (subset : list string) (r : Row) : list (option string) :=
  (fun c => entry_get c (entry r)) <$> subset.

(** Rows whose key was not seen before, first occurrences first. *)
Fixpoint keep_first (subset : list string) (seen : gset (list (option string)))
    (l : list Row) : list Row :=
  match l with
  | [] => []
  | r :: l' =>
      let k := subset_key subset r in
      if bool_decide (k ∈ seen) then keep_first subset seen l'
      else r :: keep_first subset ({[ k ]} ∪ seen) l'
  end.

(** [df.drop_duplicates(subset=subset, inplace=True)]: an empty frame is
    left alone before the columns are looked at. *)
Definition drop_duplicates (subset : list string) (df : DataFrame)
  : result DataFrame :=
  if df_empty df then Ok df
  else
    match filter (fun c => c ∉ columns df) subset with
    | missing :: _ => Raise (KeyError missing)
    | [] => Ok (mk_frame (columns df) (keep_first subset ∅ (rows df)))
    end.

(** [NewsScraper.remove_duplicates] *)
Definition remove_duplicates (entries : list Entry) : result DataFrame :=
  let df := DataFrame_of entries in
  drop_duplicates ["Title"; "Link"] df.

(** ** Aggregate counts *)

(** The counting loop of [_store_in_db]:
    [country_counts[country] = country_counts.get(country, 0) + 1]. *)
Definition count_country (country_counts : gmap string nat) (e : Entry)
  : gmap string nat :=
  <[ Country e := (default 0%nat (country_counts !! Country e) + 1)%nat ]>
    country_counts.

Definition country_counts_of (entries : list Entry) : gmap string nat :=
  foldl count_country ∅ entries.

(** [series.value_counts().to_dict()] *)
Definition value_counts (series : list string) : gmap string nat :=
  foldr (fun v counts => <[ v := S (default 0%nat (counts !! v)) ]> counts)
        ∅ series.

(** The sum of the values of a dictionary of counts. *)
Definition total (counts : gmap string nat) : nat :=
  map_fold (fun _ n acc => (n + acc)%nat) 0%nat counts.

(** ** The pipeline: state, output and exceptions *)

(** A row of the table [news_articles] (without [id] and [ScrapedAt]). *)
Record DbRow : Type := mk_dbrow {
  db_entry : Entry;
  NoofArticles : nat
}.

(** A line written by [print]. *)
Inductive output : Type :=
| JobStarted
| Processing (country source : string)
| NetworkError (url : string)
| ErrorParsing (url : string)
| Added (n : nat)
| Stored (n : nat) (db_name : string)
| Saved (filename : string)
| JobFinished.

(** What a run reads and writes: the table, the CSV files by name, and the
    lines printed so far. *)
Record State : Type := mk_state {
  news_articles : list DbRow;
  files : gmap string DataFrame;
  stdout : list output
}.

(** A computation that may change the state and may raise. *)
Definition M (A : Type) : Type := State -> State * result A.

Global Instance M_ret : MRet M := fun A a st => (st, Ok a).

Global Instance M_bind : MBind M := fun A B f m st =>
  match m st with
  | (st', Ok a) => f a st'
  | (st', Raise e) => (st', Raise e)
  end.

Definition raise {A} (e : exn) : M A := fun st => (st, Raise e).

Definition lift {A} (r : result A) : M A := fun st => (st, r).

Definition print (line : output) : M unit := fun st =>
  (mk_state (news_articles st) (files st) (stdout st ++ [line]), Ok tt).

(** [INSERT OR IGNORE INTO news_articles ...]: [Link] is [UNIQUE]. *)
Definition insert_or_ignore (row : DbRow) : M unit := fun st =>
  if existsb (fun r => String.eqb (Link (db_entry r)) (Link (db_entry row)))
             (news_articles st)
  then (st, Ok tt)
  else (mk_state (news_articles st ++ [row]) (files st) (stdout st), Ok tt).

(** [df.to_csv(filename, ...)] *)
Definition to_csv (df : DataFrame) (filename : string) : M unit := fun st =>
  (mk_state (news_articles st) (<[ filename := df ]> (files st)) (stdout st),
   Ok tt).

Definition db_name : string := "news.db".

(** The second loop of [_store_in_db]. *)
Fixpoint insert_all (country_counts : gmap string nat) (entries : list Entry)
  : M unit :=
  match entries with
  | [] => mret tt
  | e :: entries' =>
      match country_counts !! Country e with
      | None => raise (KeyError (Country e))
      | Some n =>
          _ ← insert_or_ignore (mk_dbrow e n);
          insert_all country_counts entries'
      end
  end.

(** [NewsScraper._store_in_db] *)
Definition _store_in_db (entries : list Entry) : M unit :=
  let country_counts := country_counts_of entries in
  insert_all country_counts entries.

(** [NewsScraper.is_url_accessible] *)
Definition is_url_accessible `{World} (url : string) : bool :=
  match url_status url with
  | Some status_code => (status_code =? 200)%nat
  | None => false
  end.

(** [NewsScraper.parse_feed] *)
Definition parse_feed `{World} (feed : Feed) : M (list Entry) :=
  if negb (is_url_accessible (url feed)) then
    _ ← print (NetworkError (url feed));
    mret []
  else
    match fetch_soup (url feed) with
    | None =>
        _ ← print (ErrorParsing (url feed));
        mret []
    | Some soup =>
        let items :=
          match Soup.find_all "item" soup with
          | [] => Soup.find_all "entry" soup
          | items => items
          end in
        match parse_items feed items [] with
        | (entries, Some _) =>
            _ ← print (ErrorParsing (url feed));
            mret entries
        | (entries, None) => mret entries
        end
    end.

(** [NewsScraper.scrape_all_feeds]; [all_entries] is the list built so far. *)
Fixpoint scrape_feeds `{World} (rss_feeds : list Feed)
    (all_entries : list Entry) : M (list Entry) :=
  match rss_feeds with
  | [] => mret all_entries
  | feed :: rss_feeds' =>
      _ ← print (Processing (country feed) (source feed));
      feed_entries ← parse_feed feed;
      _ ← print (Added (length feed_entries));
      scrape_feeds rss_feeds' (all_entries ++ feed_entries)
  end.

Definition scrape_all_feeds `{World} (rss_feeds : list Feed)
  : M (list Entry) :=
  scrape_feeds rss_feeds [].

(** [df['NoOfArticles'] = series] *)
Definition setitem_NoOfArticles (df : DataFrame) (series : list (option nat))
  : DataFrame :=
  mk_frame
    (if bool_decide ("NoOfArticles" ∈ columns df) then columns df
     else columns df ++ ["NoOfArticles"])
    (zip_with (fun r n => mk_row (entry r) (Some n)) (rows df) series).

(** [NewsScraper.save_to_csv] with the default file name. *)
Definition save_to_csv (df : DataFrame) : M unit :=
  countries ← lift (getitem df "Country");
  let country_counts := value_counts countries in
  countries ← lift (getitem df "Country");
  let df := setitem_NoOfArticles df
              ((fun c => country_counts !! c) <$> countries) in
  _ ← to_csv df "news_data.csv";
  print (Saved "news_data.csv").

(** [NewsScraper.run] *)
Definition run `{World} (rss_feeds : list Feed) : M unit :=
  _ ← print JobStarted;
  entries ← scrape_all_feeds rss_feeds;
  df_cleaned ← lift (remove_duplicates entries);
  _ ← _store_in_db (to_dict_records df_cleaned);
  _ ← print (Stored (length (rows df_cleaned)) db_name);
  _ ← save_to_csv df_cleaned;
  print JobFinished.

(** ** Vocabulary of the statements about text *)

Module Words.
Import Re.

Definition no_space (s : string) : bool :=
  Html.all_chars (fun c => negb (isspace c)) s.

Definition all_space (s : string) : bool := Html.all_chars isspace s.

Definition starts_with_space (s : string) : bool :=
  match s with
  | String c _ => isspace c
  | EmptyString => false
  end.

(** A weekday-style token: two to nine letters of [[A-Za-z]]. *)
Definition weekday_token (letters : string) : bool :=
  (2 <=? String.length letters)%nat && (String.length letters <=? 9)%nat
  && Html.all_chars ascii_letter letters.

(** A word of [split]: not empty, no whitespace. *)
Definition is_word_of_split (w : string) : Prop :=
  truthy w = true ∧ no_space w = true.

(** [s] without the prefix [p], when [s] starts with [p]. *)
Fixpoint strip_prefix (p s : string) : option string :=
  match p, s with
  | EmptyString, _ => Some s
  | String a p', String b s' =>
      if Ascii.eqb a b then strip_prefix p' s' else None
  | String _ _, EmptyString => None
  end.

Fixpoint last_char (s : string) : option ascii :=
  match s with
  | EmptyString => None
  | String c EmptyString => Some c
  | String _ s' => last_char s'
  end.

(** [tok] stands at the start of [s], after the character [prev], as a
    token of its own: a word boundary on each side. *)
Definition token_at (prev : option ascii) (tok s : string) : bool :=
  match strip_prefix tok s with
  | Some rest =>
      word_boundary prev (head tok)
      && word_boundary (last_char tok) (head rest)
  | None => false
  end.

Definition standalone_tz_at (prev : option ascii) (s : string) : bool :=
  existsb (fun tz => token_at prev tz s) tz_abbreviations.

(** Some timezone abbreviation stands as a token somewhere in [s]. *)
Fixpoint has_standalone_tz (prev : option ascii) (s : string) : bool :=
  match s with
  | EmptyString => false
  | String c s' => standalone_tz_at prev s || has_standalone_tz (Some c) s'
  end.

(** [out] is [s] with some standalone timezone abbreviations deleted and
    every other character kept. *)
Inductive tz_deleted : option ascii -> string -> string -> Prop :=
| tz_deleted_end prev :
    tz_deleted prev EmptyString EmptyString
| tz_deleted_keep prev c s out :
    tz_deleted (Some c) s out ->
    tz_deleted prev (String c s) (String c out)
| tz_deleted_token prev tz rest out :
    In tz tz_abbreviations ->
    token_at prev tz (tz +:+ rest) = true ->
    tz_deleted (last_char tz) rest out ->
    tz_deleted prev (tz +:+ rest) out.

(** Every whitespace character is one space that stands between two
    characters that are not whitespace. *)
Fixpoint single_spaced (s : string) : bool :=
  match s with
  | EmptyString => true
  | String c s' =>
      (if isspace c
       then (code c =? 32)%N && truthy s' && negb (starts_with_space s')
       else true)
      && single_spaced s'
  end.

(** Whitespace runs collapsed to single spaces, and trimmed. *)
Definition collapsed (s : string) : bool :=
  negb (starts_with_space s) && single_spaced s.

End Words.

(** ** Vocabulary of the statements about the batch *)

(** What the loop of [parse_feed] appends for one item. *)
Definition entry_of `{World} (feed : Feed) (item : Node) : option Entry :=
  match parse_item feed item with
  | Ok appended => appended
  | Raise _ => None
  end.

(** The pair that identifies an article within a run. *)
Definition title_link (e : Entry) : string * string := (Title e, Link e).

(** The pair as the key that [drop_duplicates] compares. *)
Definition pair_key (p : string * string) : list (option string) :=
  [Some p.1; Some p.2].

(** The state after some more lines were printed. *)
Definition printed (st : State) (lines : list output) : State :=
  mk_state (news_articles st) (files st) (stdout st ++ lines).

(** How many entries of a batch come from a country. *)
Definition occurrences (c : string) (entries : list Entry) : nat :=
  length (filter (fun e => Country e = c) entries).

(** A source that yields nothing: the probe fails, or the download or the
    XML parser raises. *)
Definition feed_fails `{World} (feed : Feed) : Prop :=
  is_url_accessible (url feed) = false ∨ fetch_soup (url feed) = None.

(** ** A sample world

    A clock stopped at 2024-06-03 20:00:00, a date parser that reads
    [YYYY-MM-DD] only, one reachable feed with two items and one
    unreachable feed. *)
Module Sample.

Definition number (s : string) : option Z :=
  if truthy s && Html.all_chars Html.is_digit s
  then Some (Z.of_N (Html.int_of 10 0 s)) else None.

(** [YYYY-MM-DD], with days up to 28 so that every date read exists. *)
Definition iso_date (s : string) : option datetime :=
  if (String.length s =? 10)%nat
     && String.eqb (Html.take 1 (Html.drop 4 s)) "-"
     && String.eqb (Html.take 1 (Html.drop 7 s)) "-"
  then
    match number (Html.take 4 s), number (Html.take 2 (Html.drop 5 s)),
          number (Html.drop 8 s) with
    | Some y, Some m, Some d =>
        if (1 <=? y) && (1 <=? m) && (m <=? 12) && (1 <=? d) && (d <=? 28)
        then Some (date y m d) else None
    | _, _, _ => None
    end
  else None.

Definition item (title link : string) : Node :=
  Tag "item" []
    [Tag "title" [] [NavigableString title];
     Tag "link" [] [NavigableString link]].

Definition document : list Node :=
  [Tag "rss" []
     [Tag "channel" []
        [item "X" "http://a"; item EmptyString "http://a"]]].

Definition feed : Feed := mk_feed "UK" "BBC" "http://feed.example/rss".
Definition dead_feed : Feed := mk_feed "US" "CNN" "http://down.example/rss".

Definition world : World := {|
  parser_parse := iso_date;
  strptime := fun text fmt =>
    if String.eqb fmt "%Y-%m-%d" then iso_date text else None;
  wall_clock := fun _ => mk_datetime 2024 6 3 20 0 0 0 None;
  local_utcoffset := fun _ => 0;
  detect := fun _ => Some "en";
  url_status := fun u =>
    if String.eqb u "http://feed.example/rss" then Some 200%nat else None;
  fetch_soup := fun u =>
    if String.eqb u "http://feed.example/rss" then Some document else None
|}.

(** A world in which the flexible parser reads nothing. *)
Definition strict_world : World := {|
  parser_parse := fun _ => None;
  strptime := @strptime world;
  wall_clock := @wall_clock world;
  local_utcoffset := @local_utcoffset world;
  detect := @detect world;
  url_status := @url_status world;
  fetch_soup := @fetch_soup world
|}.

Definition empty_state : State := mk_state [] ∅ [].

End Sample.

(** ** The configured feeds *)



(** ** Vocabulary of the statements about a run *)

(** The tags [parse_feed] loops over: the [item] tags of the document, or
    its [entry] tags when it has no [item]. *)
Definition items_of (soup : list Node) : list Node :=
  match Soup.find_all "item" soup with
  | [] => Soup.find_all "entry" soup
  | items => items
  end.

(** The entries one source contributes to a run. *)
Definition feed_entries `{World} (feed : Feed) : list Entry :=
  if is_url_accessible (url feed) then
    match fetch_soup (url feed) with
    | Some soup => omap (entry_of feed) (items_of soup)
    | None => []
    end
  else [].

(** The line a source prints when it yields nothing by failure. *)
Definition feed_error `{World} (feed : Feed) : list output :=
  if is_url_accessible (url feed) then
    match fetch_soup (url feed) with
    | Some _ => []
    | None => [ErrorParsing (url feed)]
    end
  else [NetworkError (url feed)].

(** The lines printed while one source is processed. *)
Definition feed_lines `{World} (feed : Feed) : list output :=
  Processing (country feed) (source feed)
  :: feed_error feed ++ [Added (length (feed_entries feed))].

(** The entries of a run before deduplication, and the lines printed while
    they are collected. *)
Definition all_entries_of `{World} (rss_feeds : list Feed) : list Entry :=
  concat (feed_entries <$> rss_feeds).

Definition all_lines_of `{World} (rss_feeds : list Feed) : list output :=
  concat (feed_lines <$> rss_feeds).

(** The batch that [remove_duplicates] leaves. *)
Definition deduplicated (entries : list Entry) : list Entry :=
  entry <$> keep_first ["Title"; "Link"] ∅
              ((fun e => mk_row e None) <$> entries).

(** The links held by the table. *)
Definition links (table : list DbRow) : list string :=
  (fun r => Link (db_entry r)) <$> table.

(** The labels from the freshest to the oldest. *)
Definition label_rank (label : string) : nat :=
  if String.eqb label "Today" then 0
  else if String.eqb label "This Week" then 1
  else if String.eqb label "This Month" then 2
  else if String.eqb label "1 Year Ago" then 3
  else if String.eqb label "2 Years Ago" then 4
  else 5.

(* ===================================================================== *)
(** * Part II: properties *)
(* ===================================================================== *)

(** ** The date normalizer: bucketing *)

Section Bucketing.
Context `{World}.

Lemma bucket_in_labels (d : Z) : bucket d ∈ labels.
Proof.
  unfold bucket, labels.
  repeat case_match; set_solver.
Qed.

Lemma days_timedelta_of (d s us : Z) :
  days (timedelta_of d s us) = total_microseconds d s us / 86400000000.
Proof. reflexivity. Qed.

Lemma tz_datetime_now (t : option tzinfo) : tz (datetime_now t) = t.
Proof. reflexivity. Qed.

(** The subtraction of [calculate_duration] never mixes a naive and an
    aware datetime: both operands carry the same [tzinfo]. *)
Lemma elapsed_ok (pub_date : datetime) :
  ∃ delta, elapsed pub_date = Ok delta
           ∧ days delta = whole_days (datetime_now (tz pub_date)) pub_date.
Proof.
  unfold elapsed.
  replace (match tz pub_date with
           | Some t => datetime_now (Some t)
           | None => datetime_now None
           end) with (datetime_now (tz pub_date)) by (by destruct (tz pub_date)).
  unfold datetime_sub.
  rewrite tz_datetime_now, bool_decide_eq_true_2 by done.
  eexists; split; [done|].
  rewrite days_timedelta_of. unfold whole_days, instant, total_microseconds.
  f_equal. lia.
Qed.

Lemma clean_date_string_None (s : string) :
  clean_date_string s = None ↔ s = EmptyString.
Proof.
  unfold clean_date_string. destruct s; simpl; split; congruence.
Qed.

(** [calculate_duration] in terms of the date it parses. *)
Lemma calculate_duration_parsed (s : string) :
  calculate_duration s =
    match parsed_date s with
    | None => Ok "Unknown"
    | Some pub_date =>
        Ok (bucket (whole_days (datetime_now (tz pub_date)) pub_date))
    end.
Proof.
  unfold calculate_duration, parsed_date.
  destruct (truthy s) eqn:Hs; simpl.
  - destruct (clean_date_string s) as [c|]; [|done].
    destruct (truthy c); simpl; [|done].
    destruct (parse_published c).1 as [pub|]; [|done].
    destruct (elapsed_ok pub) as (delta & -> & <-). done.
  - destruct s; [|done]. done.
Qed.

(** The normalizer returns, and what it returns is a label. *)
Lemma calculate_duration_label (s : string) :
  ∃ label, calculate_duration s = Ok label ∧ label ∈ labels.
Proof.
  rewrite calculate_duration_parsed.
  destruct (parsed_date s) as [pub|].
  - eexists; split; [done|]. apply bucket_in_labels.
  - eexists; split; [done|]. unfold labels. set_solver.
Qed.

End Bucketing.

(** C1: the date normalizer is total.  Whatever the string and whatever the
    parsers and the clock do, [calculate_duration] returns (it does not raise)
    one of the seven labels, and the empty string gives [Unknown]. *)
Theorem calculate_duration_total `{World} (published_date : string) :
  (∃ label, calculate_duration published_date = Ok label ∧ label ∈ labels)
  ∧ labels = ["Today"; "This Week"; "This Month"; "1 Year Ago";
              "2 Years Ago"; "Older"; "Unknown"]
  ∧ calculate_duration EmptyString = Ok "Unknown".
Proof.
  split; [apply calculate_duration_label|done].
Qed.

(** C3: for a raw string that parses to [pub_date], the label is decided by
    the whole elapsed days [d], the floor of now minus [pub_date] in days,
    with now read in the zone of [pub_date] when it has one and on the local
    clock otherwise: 0 is Today, 1-7 This Week, 8-30 This Month, 31-365
    1 Year Ago, 366-730 2 Years Ago, more than 730 Older. *)
Theorem bucket_by_whole_days `{World} (published_date : string)
    (pub_date : datetime) :
  parsed_date published_date = Some pub_date →
  let now := datetime_now (tz pub_date) in
  let d := whole_days now pub_date in
  tz now = tz pub_date
  ∧ (d = 0 → calculate_duration published_date = Ok "Today")
  ∧ (1 ≤ d ≤ 7 → calculate_duration published_date = Ok "This Week")
  ∧ (8 ≤ d ≤ 30 → calculate_duration published_date = Ok "This Month")
  ∧ (31 ≤ d ≤ 365 → calculate_duration published_date = Ok "1 Year Ago")
  ∧ (366 ≤ d ≤ 730 → calculate_duration published_date = Ok "2 Years Ago")
  ∧ (730 < d → calculate_duration published_date = Ok "Older").
Proof.
  intros Hp now d. rewrite calculate_duration_parsed, Hp.
  fold now. fold d. generalize d. clear. intros d.
  split; [done|].
  unfold bucket.
  repeat split; intros Hd; repeat case_match; try done; lia.
Qed.

(** The example of the specification: 2022-01-01 read on 2024-06-03 is 884
    whole days old, hence Older. *)
Lemma bucket_by_whole_days_witness :
  @parsed_date Sample.world "2022-01-01" = Some (date 2022 1 1)
  ∧ whole_days (@datetime_now Sample.world None) (date 2022 1 1) = 884
  ∧ @calculate_duration Sample.world "2022-01-01" = Ok "Older".
Proof.
  split; [reflexivity|]. split; [reflexivity|].
  apply (@bucket_by_whole_days Sample.world "2022-01-01" (date 2022 1 1));
    [reflexivity | vm_compute; done].
Defined.

(** C10: a date in the future of the clock it is compared with has a
    negative count of whole days and is labelled This Week: the chain of
    comparisons has no branch for negative counts, and [d <= 7] takes them. *)
Theorem future_date_is_this_week `{World} (published_date : string)
    (pub_date : datetime) :
  parsed_date published_date = Some pub_date →
  instant (datetime_now (tz pub_date)) < instant pub_date →
  whole_days (datetime_now (tz pub_date)) pub_date < 0
  ∧ calculate_duration published_date = Ok "This Week".
Proof.
  intros Hp Hlt. rewrite calculate_duration_parsed, Hp.
  assert (whole_days (datetime_now (tz pub_date)) pub_date < 0) as Hd.
  { unfold whole_days. apply Z.div_lt_upper_bound; lia. }
  split; [done|].
  unfold bucket. repeat case_match; try done; lia.
Qed.

Lemma future_date_is_this_week_witness :
  @parsed_date Sample.world "2030-01-01" = Some (date 2030 1 1)
  ∧ @calculate_duration Sample.world "2030-01-01" = Ok "This Week".
Proof.
  split; [reflexivity|].
  apply (@future_date_is_this_week Sample.world "2030-01-01" (date 2030 1 1));
    [reflexivity | vm_compute; done].
Defined.

(** ** The date normalizer: the order of the parsing attempts *)

Section Attempts.
Context `{World}.

(** The loop stops at the first format that [strptime] accepts. *)
Lemma try_formats_first (before after : list string) (fmt : string)
    (cleaned_date : string) (d : datetime) :
  Forall (fun f => strptime cleaned_date f = None) before →
  strptime cleaned_date fmt = Some d →
  try_formats (before ++ fmt :: after) cleaned_date
  = (Some d, (Pattern <$> before) ++ [Pattern fmt]).
Proof.
  intros Hbefore Hfmt.
  induction Hbefore as [|f before Hf _ IH]; simpl.
  - by rewrite Hfmt.
  - by rewrite Hf, IH.
Qed.

(** When no format is accepted, all of them are tried. *)
Lemma try_formats_none (fmts : list string) (cleaned_date : string) :
  Forall (fun f => strptime cleaned_date f = None) fmts →
  try_formats fmts cleaned_date = (None, Pattern <$> fmts).
Proof.
  induction 1 as [|f fmts Hf _ IH]; simpl; [done|].
  by rewrite Hf, IH.
Qed.

End Attempts.

(** C9: the flexible parser is tried first; the eleven explicit patterns are
    tried only when it fails, in the fixed order of [date_formats], and the
    attempts stop at the first pattern that succeeds. *)
Theorem parse_attempts_in_order `{World} (cleaned_date : string) :
  date_formats =
    [ "%a, %d %b %Y %H:%M:%S %z"; "%a, %d %b %Y %H:%M:%S %Z";
      "%Y-%m-%dT%H:%M:%S%z"; "%Y-%m-%d %H:%M:%S"; "%d %b %Y %H:%M:%S";
      "%a, %d %b %Y %H:%M:%S"; "%Y-%m-%d"; "%b %d, %Y %H:%M:%S";
      "%d-%m-%Y %H:%M:%S"; "%m/%d/%Y %H:%M:%S"; "%Y%m%d" ]
  ∧ (∀ d, parser_parse cleaned_date = Some d →
          parse_published cleaned_date = (Some d, [Flexible]))
  ∧ (∀ before fmt after d,
        parser_parse cleaned_date = None →
        date_formats = before ++ fmt :: after →
        Forall (fun f => strptime cleaned_date f = None) before →
        strptime cleaned_date fmt = Some d →
        parse_published cleaned_date
        = (Some d, Flexible :: (Pattern <$> before) ++ [Pattern fmt]))
  ∧ (parser_parse cleaned_date = None →
     Forall (fun f => strptime cleaned_date f = None) date_formats →
     parse_published cleaned_date = (None, Flexible :: (Pattern <$> date_formats))).
Proof.
  split; [done|]. unfold parse_published. repeat split.
  - by intros d ->.
  - intros before fmt after d -> -> Hbefore Hfmt.
    by rewrite (try_formats_first _ _ _ _ d).
  - intros -> Hall. by rewrite try_formats_none.
Qed.

(** In the sample world without a flexible parser, ["2022-01-01"] is read by
    the seventh pattern, after six failures, and the last four patterns are
    not tried. *)
Lemma parse_attempts_in_order_witness :
  @parse_published Sample.strict_world "2022-01-01"
  = (Some (date 2022 1 1),
     Flexible :: (Pattern <$> take 6 date_formats) ++ [Pattern "%Y-%m-%d"]).
Proof.
  pose proof (@parse_attempts_in_order Sample.strict_world "2022-01-01")
    as (_ & _ & Hfirst & _).
  apply (Hfirst (take 6 date_formats) "%Y-%m-%d" (drop 7 date_formats));
    [reflexivity | reflexivity | | reflexivity].
  repeat constructor.
Defined.

(** ** Date cleaning: the weekday token *)

Section Weekday.
Import Re Words.

Lemma letters_upto_app (n : nat) (letters rest : string) :
  Html.all_chars ascii_letter letters = true →
  (String.length letters ≤ n)%nat →
  match rest with String c _ => ascii_letter c = false | EmptyString => True end →
  letters_upto n (letters +:+ rest) = (String.length letters, rest).
Proof.
  revert n. induction letters as [|c letters IH]; intros n Hall Hlen Hrest.
  - simpl. destruct n, rest; try done. simpl. by rewrite Hrest.
  - simpl in *. apply andb_true_iff in Hall as [Hc Hall].
    destruct n as [|n]; [lia|]. simpl. rewrite Hc.
    rewrite (IH n) by (done || lia). done.
Qed.

Lemma letters_upto_spec (n : nat) (s : string) (k : nat) (r : string) :
  letters_upto n s = (k, r) →
  ∃ letters, s = letters +:+ r ∧ String.length letters = k
             ∧ Html.all_chars ascii_letter letters = true ∧ (k ≤ n)%nat.
Proof.
  revert s k r. induction n as [|n IH]; intros s k r Hs.
  - exists EmptyString. destruct s; simplify_eq/=; done.
  - destruct s as [|c s]; simpl in Hs.
    { exists EmptyString. simplify_eq/=. split_and!; (done || lia). }
    destruct (ascii_letter c) eqn:Hc.
    + destruct (letters_upto n s) as [k' r'] eqn:Hn. simplify_eq.
      destruct (IH _ _ _ Hn) as (letters & -> & <- & Hall & Hle).
      exists (String c letters). simpl. rewrite Hc, Hall.
      split_and!; (done || lia).
    + exists EmptyString. simplify_eq/=. split_and!; (done || lia).
Qed.

Lemma lstrip_app (ws rest : string) :
  all_space ws = true → starts_with_space rest = false →
  lstrip (ws +:+ rest) = rest.
Proof.
  intros Hws Hrest. induction ws as [|c ws IH]; simpl in *.
  - destruct rest; [done|]. simpl in *. by rewrite Hrest.
  - apply andb_true_iff in Hws as [-> Hws]. auto.
Qed.

(** A leading token of two to nine letters, its comma and the whitespace
    after it are removed. *)
Lemma sub_weekday_token (letters ws rest : string) :
  weekday_token letters = true → all_space ws = true →
  starts_with_space rest = false →
  sub_weekday (letters +:+ "," +:+ ws +:+ rest) = rest.
Proof.
  intros Htok Hws Hrest. unfold weekday_token in Htok.
  apply andb_true_iff in Htok as [Hlen Hall].
  apply andb_true_iff in Hlen as [H2 H9].
  apply Nat.leb_le in H2, H9.
  unfold sub_weekday.
  change ("," +:+ ws +:+ rest) with (String ","%char (ws +:+ rest)).
  rewrite letters_upto_app by done.
  apply Nat.leb_le in H2. rewrite H2.
  change (code ","%char =? 44)%N with true. cbv iota.
  by apply lstrip_app.
Qed.

(** A string that does not start with such a token and its comma is left
    as it is. *)
Lemma sub_weekday_other (s : string) :
  (∀ letters rest, s = letters +:+ "," +:+ rest → weekday_token letters = false) →
  sub_weekday s = s.
Proof.
  intros Hno. unfold sub_weekday.
  destruct (letters_upto 9 s) as [k r] eqn:Hk.
  destruct (letters_upto_spec _ _ _ _ Hk) as (letters & -> & <- & Hall & Hle).
  destruct (2 <=? String.length letters)%nat eqn:H2; [|done].
  destruct r as [|c r]; [done|].
  destruct (code c =? 44)%N eqn:Hc; [|done].
  apply N.eqb_eq in Hc.
  assert (c = ","%char) as ->.
  { apply (f_equal ascii_of_N) in Hc. unfold code in Hc.
    by rewrite ascii_N_embedding in Hc. }
  specialize (Hno letters r eq_refl). unfold weekday_token in Hno.
  apply Nat.leb_le in Hle. by rewrite H2, Hle, Hall in Hno.
Qed.

End Weekday.

(** ** Date cleaning: timezone abbreviations *)

Section Timezones.
Import Re Words.

Lemma by_length (P : string → Prop) :
  (∀ s, (∀ t, (String.length t < String.length s)%nat → P t) → P s) →
  ∀ s, P s.
Proof.
  intros Hstep s. remember (String.length s) as n eqn:Hn. revert s Hn.
  induction n as [n IH] using lt_wf_ind. intros s ->.
  apply Hstep. intros t Ht. by apply (IH _ Ht).
Qed.

Lemma strip_prefix_app (p rest : string) :
  strip_prefix p (p +:+ rest) = Some rest.
Proof.
  induction p as [|a p IH]; simpl; [by destruct rest|].
  by rewrite Ascii.eqb_refl.
Qed.

Lemma strip_prefix_Some (p s rest : string) :
  strip_prefix p s = Some rest → s = p +:+ rest.
Proof.
  revert s. induction p as [|a p IH]; intros s Hs.
  - destruct s; by simplify_eq/=.
  - destruct s as [|b s]; [done|]. simpl in Hs.
    destruct (Ascii.eqb_spec a b) as [->|]; [|done].
    rewrite (IH _ Hs). done.
Qed.

Lemma app3 (a1 a2 a3 : ascii) (r : string) :
  String a1 (String a2 (String a3 EmptyString)) +:+ r
  = String a1 (String a2 (String a3 r)).
Proof. reflexivity. Qed.

(** Every abbreviation is made of three word characters. *)
Lemma tz_shape (tz : string) :
  In tz tz_abbreviations →
  ∃ a1 a2 a3, tz = String a1 (String a2 (String a3 EmptyString))
              ∧ is_word a1 = true ∧ is_word a2 = true ∧ is_word a3 = true.
Proof.
  unfold tz_abbreviations. simpl.
  intros Htz. repeat (destruct Htz as [<-|Htz]; [by do 3 eexists|]). done.
Qed.

Lemma token_at_tz (prev : option ascii) (tz rest : string) :
  In tz tz_abbreviations →
  token_at prev tz (tz +:+ rest)
  = negb (word_at prev) && negb (word_at (head rest)).
Proof.
  intros (a1 & a2 & a3 & -> & H1 & H2 & H3)%tz_shape.
  unfold token_at. rewrite strip_prefix_app. simpl.
  unfold word_boundary. simpl. rewrite H1, H3.
  by destruct (word_at prev), (word_at (head rest)).
Qed.

Lemma standalone_tz_at_inv (prev : option ascii) (s : string) :
  standalone_tz_at prev s = true →
  ∃ tz rest, In tz tz_abbreviations ∧ s = tz +:+ rest
             ∧ word_at prev = false ∧ word_at (head rest) = false.
Proof.
  unfold standalone_tz_at. intros (tz & Htz & Htok)%existsb_exists.
  assert (∃ rest, s = tz +:+ rest) as [rest ->].
  { unfold token_at in Htok.
    destruct (strip_prefix tz s) as [rest|] eqn:Hp; [|done].
    exists rest. by apply strip_prefix_Some. }
  rewrite token_at_tz in Htok by done.
  apply andb_true_iff in Htok as [?%negb_true_iff ?%negb_true_iff].
  by exists tz, rest.
Qed.

Lemma standalone_tz_at_intro (prev : option ascii) (tz rest : string) :
  In tz tz_abbreviations →
  word_at prev = false → word_at (head rest) = false →
  standalone_tz_at prev (tz +:+ rest) = true.
Proof.
  intros Htz Hprev Hrest. unfold standalone_tz_at.
  apply existsb_exists. exists tz. split; [done|].
  rewrite token_at_tz by done. by rewrite Hprev, Hrest.
Qed.

Lemma is_tz_In (c1 c2 c3 : ascii) :
  is_tz c1 c2 c3 = true
  ↔ In (String c1 (String c2 (String c3 EmptyString))) tz_abbreviations.
Proof.
  unfold is_tz. rewrite existsb_exists. split.
  - intros (tz & Htz & ->%String.eqb_eq). done.
  - intros Htz. eexists; split; [done|]. apply String.eqb_refl.
Qed.

(** The test of the scanning function is the match of the pattern. *)
Lemma tz_here_standalone (prev : option ascii) (c1 c2 c3 : ascii)
    (rest : string) :
  tz_here prev c1 c2 c3 rest
  = standalone_tz_at prev (String c1 (String c2 (String c3 rest))).
Proof.
  apply eq_true_iff_eq. split.
  - unfold tz_here. intros [[Hb1 Htz]%andb_true_iff Hb2]%andb_true_iff.
    apply is_tz_In in Htz.
    destruct (tz_shape _ Htz) as (a1 & a2 & a3 & [= -> -> ->] & H1 & H2 & H3).
    apply (standalone_tz_at_intro prev _ rest Htz).
    + unfold word_boundary in Hb1. simpl in Hb1. rewrite H1 in Hb1.
      by destruct (word_at prev).
    + unfold word_boundary in Hb2. simpl in Hb2. rewrite H3 in Hb2.
      by destruct (word_at (head rest)).
  - intros (tz & rest' & Htz & Hs & Hprev & Hrest)%standalone_tz_at_inv.
    destruct (tz_shape _ Htz) as (a1 & a2 & a3 & -> & H1 & H2 & H3).
    rewrite app3 in Hs. simplify_eq.
    unfold tz_here, word_boundary. simpl.
    rewrite Hprev, Hrest, H1, H3. simpl.
    rewrite andb_true_r. by apply is_tz_In.
Qed.

Lemma sub_tz_from_3 (prev : option ascii) (c1 c2 c3 : ascii) (rest : string) :
  sub_tz_from prev (String c1 (String c2 (String c3 rest)))
  = if tz_here prev c1 c2 c3 rest then sub_tz_from (Some c3) rest
    else String c1 (sub_tz_from (Some c1) (String c2 (String c3 rest))).
Proof. reflexivity. Qed.

(** Where the pattern does not match, the character is copied. *)
Lemma sub_tz_from_keep (prev : option ascii) (c : ascii) (s : string) :
  standalone_tz_at prev (String c s) = false →
  sub_tz_from prev (String c s) = String c (sub_tz_from (Some c) s).
Proof.
  intros Hno. destruct s as [|c2 [|c3 rest]]; [done..|].
  by rewrite sub_tz_from_3, tz_here_standalone, Hno.
Qed.

(** Where it matches, the three letters are dropped. *)
Lemma sub_tz_from_drop (prev : option ascii) (s : string) :
  standalone_tz_at prev s = true →
  ∃ tz rest, In tz tz_abbreviations ∧ s = tz +:+ rest
             ∧ word_at prev = false ∧ word_at (head rest) = false
             ∧ word_at (last_char tz) = true
             ∧ sub_tz_from prev s = sub_tz_from (last_char tz) rest.
Proof.
  intros Hs.
  destruct (standalone_tz_at_inv _ _ Hs) as (tz & rest & Htz & -> & Hp & Hr).
  exists tz, rest.
  destruct (tz_shape _ Htz) as (a1 & a2 & a3 & -> & H1 & H2 & H3).
  split_and!; try done.
  rewrite app3 in Hs |- *.
  by rewrite sub_tz_from_3, tz_here_standalone, Hs.
Qed.

Lemma standalone_tz_at_word_prev (prev : option ascii) (s : string) :
  word_at prev = true → standalone_tz_at prev s = false.
Proof.
  intros Hp. destruct (standalone_tz_at prev s) eqn:Hs; [|done].
  apply standalone_tz_at_inv in Hs as (? & ? & ? & ? & ? & ?). congruence.
Qed.

Lemma standalone_tz_at_head (prev : option ascii) (s : string) :
  word_at (head s) = false → standalone_tz_at prev s = false.
Proof.
  intros Hh. destruct (standalone_tz_at prev s) eqn:Hs; [|done].
  apply standalone_tz_at_inv in Hs as (tz & rest & Htz & -> & _).
  destruct (tz_shape _ Htz) as (a1 & a2 & a3 & -> & H1 & _).
  rewrite app3 in Hh. simpl in Hh. congruence.
Qed.

(** After a word character nothing matches: the next character is copied. *)
Lemma sub_tz_from_after_word (prev : option ascii) (c : ascii) (s : string) :
  word_at prev = true →
  sub_tz_from prev (String c s) = String c (sub_tz_from (Some c) s).
Proof. intros Hp. by apply sub_tz_from_keep, standalone_tz_at_word_prev. Qed.

(** What is removed is a standalone abbreviation, and nothing else is. *)
Lemma sub_tz_from_deleted (s : string) :
  ∀ prev, tz_deleted prev s (sub_tz_from prev s).
Proof.
  induction s as [s IH] using by_length. intros prev.
  destruct s as [|c s]; [constructor|].
  destruct (standalone_tz_at prev (String c s)) eqn:Hs.
  - destruct (sub_tz_from_drop _ _ Hs)
      as (tz & rest & Htz & Heq & Hp & Hr & _ & ->).
    rewrite Heq. apply tz_deleted_token; [done| |].
    + rewrite token_at_tz by done. by rewrite Hp, Hr.
    + apply IH. rewrite Heq.
      destruct (tz_shape _ Htz) as (a1 & a2 & a3 & -> & _).
      rewrite app3. simpl. lia.
  - rewrite sub_tz_from_keep by done. constructor. apply IH. simpl. lia.
Qed.

Lemma has_standalone_tz_prev (p p' : option ascii) (s : string) :
  has_standalone_tz p' s = false → standalone_tz_at p s = false →
  has_standalone_tz p s = false.
Proof.
  destruct s as [|c s]; [done|]. simpl.
  intros [_ ->]%orb_false_iff ->. done.
Qed.

(** No standalone abbreviation is left. *)
Lemma sub_tz_from_clean (s : string) :
  ∀ prev, has_standalone_tz prev (sub_tz_from prev s) = false.
Proof.
  induction s as [s IH] using by_length. intros prev.
  destruct s as [|c s]; [done|].
  destruct (standalone_tz_at prev (String c s)) eqn:Hs.
  - destruct (sub_tz_from_drop _ _ Hs)
      as (tz & rest & Htz & Heq & Hp & Hr & Hlast & ->).
    apply (has_standalone_tz_prev _ (last_char tz)).
    + apply IH. rewrite Heq.
      destruct (tz_shape _ Htz) as (a1 & a2 & a3 & -> & _).
      rewrite app3. simpl. lia.
    + destruct rest as [|d rest]; [done|].
      rewrite sub_tz_from_after_word by done.
      by apply standalone_tz_at_head.
  - rewrite sub_tz_from_keep by done. simpl.
    rewrite IH by (simpl; lia). rewrite orb_false_r.
    destruct (standalone_tz_at prev (String c (sub_tz_from (Some c) s)))
      eqn:Hout; [|done]. exfalso.
    apply standalone_tz_at_inv in Hout as (tz & r & Htz & Hout & Hp & Hr).
    destruct (tz_shape _ Htz) as (a1 & a2 & a3 & -> & H1 & H2 & H3).
    rewrite app3 in Hout. injection Hout as -> Hout.
    destruct s as [|d s]; [done|].
    rewrite sub_tz_from_after_word in Hout by done.
    injection Hout as -> Hout.
    destruct s as [|e s]; [done|].
    rewrite sub_tz_from_after_word in Hout by done.
    injection Hout as -> Hout.
    destruct s as [|w s].
    + rewrite <- (app3 a1 a2 a3 EmptyString) in Hs.
      by rewrite standalone_tz_at_intro in Hs.
    + destruct (is_word w) eqn:Hw.
      * rewrite sub_tz_from_after_word in Hout by done.
        subst r. simpl in Hr. congruence.
      * rewrite <- (app3 a1 a2 a3 (String w s)) in Hs.
        by rewrite standalone_tz_at_intro in Hs.
Qed.

(** A string without a standalone abbreviation is left as it is. *)
Lemma sub_tz_from_id (s : string) :
  ∀ prev, has_standalone_tz prev s = false → sub_tz_from prev s = s.
Proof.
  induction s as [|c s IH]; intros prev Hs; [done|].
  simpl in Hs. apply orb_false_iff in Hs as [Hat Hs].
  rewrite sub_tz_from_keep by done. f_equal. by apply IH.
Qed.

End Timezones.

(** ** Date cleaning: whitespace *)

Section Whitespace.
Import Re Words.

Lemma app_nil_r_s (s : string) : s +:+ EmptyString = s.
Proof. induction s as [|c s IH]; [done|]. by rewrite <- IH at 2. Qed.

Lemma app_assoc_s (a b c : string) : (a +:+ b) +:+ c = a +:+ (b +:+ c).
Proof.
  induction a as [|x a IH]; [done|].
  change (String x ((a +:+ b) +:+ c) = String x (a +:+ (b +:+ c))).
  by rewrite IH.
Qed.

Lemma app_nil_l_s (s : string) : EmptyString +:+ s = s.
Proof. reflexivity. Qed.

Lemma app_cons (c : ascii) (a b : string) :
  String c a +:+ b = String c (a +:+ b).
Proof. reflexivity. Qed.

Lemma no_space_snoc (w : string) (c : ascii) :
  no_space w = true → isspace c = false →
  no_space (w +:+ String c EmptyString) = true.
Proof.
  intros Hw Hc. induction w as [|x w IH].
  - unfold no_space. simpl. by rewrite Hc.
  - rewrite app_cons. unfold no_space in *. simpl in *.
    apply andb_true_iff in Hw as [-> Hw]. by apply IH.
Qed.

Lemma split_from_words (s : string) :
  ∀ word, no_space word = true → Forall is_word_of_split (split_from word s).
Proof.
  induction s as [|c s IH]; intros word Hword; simpl.
  - destruct (truthy word) eqn:Ht; [|constructor].
    by repeat constructor.
  - destruct (isspace c) eqn:Hc.
    + apply Forall_app. split; [|by apply IH].
      destruct (truthy word) eqn:Ht; [|constructor].
      by repeat constructor.
    + apply IH. by apply no_space_snoc.
Qed.

Lemma split_from_app (w t : string) :
  no_space w = true →
  ∀ word, split_from word (w +:+ t) = split_from (word +:+ w) t.
Proof.
  induction w as [|c w IH]; intros Hw word.
  - by rewrite app_nil_r_s.
  - unfold no_space in Hw. simpl in Hw.
    apply andb_true_iff in Hw as [Hc%negb_true_iff Hw].
    rewrite app_cons. simpl. rewrite Hc, IH by done.
    by rewrite app_assoc_s.
Qed.

Lemma split_from_space (word t : string) :
  split_from word (String " "%char t)
  = (if truthy word then [word] else []) ++ split_from EmptyString t.
Proof. reflexivity. Qed.

Lemma split_join (words : list string) :
  Forall is_word_of_split words → split (join " " words) = words.
Proof.
  unfold split. induction 1 as [|w words [Ht Hw] Hwords IH]; [done|].
  destruct words as [|w' words].
  - pose proof (split_from_app w EmptyString Hw EmptyString) as Hx.
    rewrite app_nil_r_s, app_nil_l_s in Hx.
    simpl. rewrite Hx. simpl. by rewrite Ht.
  - change (join " " (w :: w' :: words))
      with (w +:+ String " "%char (join " " (w' :: words))).
    rewrite split_from_app, app_nil_l_s by done.
    rewrite split_from_space, Ht, IH. done.
Qed.

Lemma single_spaced_app (w t : string) :
  no_space w = true → single_spaced (w +:+ t) = single_spaced t.
Proof.
  intros Hw. induction w as [|c w IH]; [done|].
  unfold no_space in Hw. simpl in Hw.
  apply andb_true_iff in Hw as [Hc%negb_true_iff Hw].
  rewrite app_cons. simpl. rewrite Hc. by apply IH.
Qed.

Lemma starts_with_space_app (w t : string) :
  is_word_of_split w → starts_with_space (w +:+ t) = false.
Proof.
  intros [Ht Hw]. destruct w as [|c w]; [done|].
  unfold no_space in Hw. simpl in Hw.
  by apply andb_true_iff in Hw as [Hc%negb_true_iff Hw].
Qed.

Lemma truthy_app (w t : string) : truthy w = true → truthy (w +:+ t) = true.
Proof. by destruct w. Qed.

Lemma single_spaced_join (words : list string) :
  Forall is_word_of_split words → single_spaced (join " " words) = true.
Proof.
  induction 1 as [|w words Hw Hwords IH]; [done|].
  destruct words as [|w' words].
  - pose proof (single_spaced_app w EmptyString (proj2 Hw)) as Hx.
    rewrite app_nil_r_s in Hx. simpl. by rewrite Hx.
  - change (join " " (w :: w' :: words))
      with (w +:+ String " "%char (join " " (w' :: words))).
    rewrite single_spaced_app by apply Hw.
    inversion Hwords as [|? ? Hw' _]; subst.
    change (join " " (w' :: words)) with
      (match words with [] => w' | _ => w' +:+ " " +:+ join " " words end) in *.
    simpl. rewrite IH, andb_true_r.
    destruct words.
    + pose proof (starts_with_space_app w' EmptyString Hw') as Hx.
      rewrite app_nil_r_s in Hx. destruct Hw' as [-> _]. by rewrite Hx.
    + rewrite truthy_app, starts_with_space_app; try done. apply Hw'.
Qed.

Lemma collapsed_join (words : list string) :
  Forall is_word_of_split words → collapsed (join " " words) = true.
Proof.
  intros Hwords. unfold collapsed.
  rewrite single_spaced_join, andb_true_r by done.
  destruct Hwords as [|w words Hw Hwords]; [done|].
  destruct words.
  - pose proof (starts_with_space_app w EmptyString Hw) as Hx.
    rewrite app_nil_r_s in Hx. simpl. by rewrite Hx.
  - change (join " " (w :: s :: words))
      with (w +:+ String " "%char (join " " (s :: words))).
    by rewrite starts_with_space_app.
Qed.

Lemma rstrip_single_spaced (s : string) :
  single_spaced s = true → rstrip s = s.
Proof.
  induction s as [|c s IH]; [done|]. simpl.
  intros [Hc Hs]%andb_true_iff. rewrite IH by done.
  destruct s as [|d s]; [|done].
  destruct (isspace c); [|done].
  by rewrite andb_false_r in Hc.
Qed.

Lemma strip_collapsed (s : string) : collapsed s = true → strip s = s.
Proof.
  unfold collapsed, strip. intros [Hl%negb_true_iff Hs]%andb_true_iff.
  assert (lstrip s = s) as ->; [|by apply rstrip_single_spaced].
  destruct s; [done|]. simpl in *. by rewrite Hl.
Qed.

End Whitespace.

(** C7: cleaning a non-empty raw date.  A leading token of two to nine
    letters with its comma and the whitespace after it is removed; the
    timezone abbreviations EST, EDT, CST, CDT, MST, MDT, PST, PDT are deleted
    where they stand as tokens of their own, and none is left; whitespace
    runs are collapsed to single spaces and the ends are trimmed, the words
    being kept; and an empty result makes the normalizer answer Unknown. *)
Theorem clean_date_string_steps `{World} (published_date : string) :
  published_date ≠ EmptyString →
  ∃ without_weekday without_tz cleaned,
    clean_date_string published_date = Some cleaned
    ∧ (∀ letters ws rest,
          published_date = letters +:+ "," +:+ ws +:+ rest →
          Words.weekday_token letters = true →
          Words.all_space ws = true →
          Words.starts_with_space rest = false →
          without_weekday = rest)
    ∧ ((∀ letters rest,
          published_date = letters +:+ "," +:+ rest →
          Words.weekday_token letters = false) →
       without_weekday = published_date)
    ∧ Words.tz_deleted None without_weekday without_tz
    ∧ Words.has_standalone_tz None without_tz = false
    ∧ split cleaned = split without_tz
    ∧ Words.collapsed cleaned = true
    ∧ (cleaned = EmptyString →
       calculate_duration published_date = Ok "Unknown").
Proof.
  intros Hne.
  pose proof (split_from_words (Re.sub_tz (Re.sub_weekday published_date))
                EmptyString eq_refl) as Hwords.
  fold (split (Re.sub_tz (Re.sub_weekday published_date))) in Hwords.
  assert (clean_date_string published_date
          = Some (join " " (split (Re.sub_tz (Re.sub_weekday published_date)))))
    as Hclean.
  { unfold clean_date_string. destruct published_date; [done|]. simpl.
    by rewrite strip_collapsed by by apply collapsed_join. }
  exists (Re.sub_weekday published_date),
         (Re.sub_tz (Re.sub_weekday published_date)),
         (join " " (split (Re.sub_tz (Re.sub_weekday published_date)))).
  split_and!.
  - done.
  - intros letters ws rest -> Htok Hws Hrest. by apply sub_weekday_token.
  - apply sub_weekday_other.
  - apply sub_tz_from_deleted.
  - apply sub_tz_from_clean.
  - by apply split_join.
  - by apply collapsed_join.
  - intros Hempty. unfold calculate_duration.
    destruct published_date; [done|]. rewrite Hclean, Hempty. done.
Qed.

Lemma clean_date_string_steps_witness :
  ∃ without_weekday without_tz cleaned,
    clean_date_string "Mon,  03 Jun 2024   10:00 EST " = Some cleaned
    ∧ without_weekday = "03 Jun 2024   10:00 EST "
    ∧ Words.tz_deleted None without_weekday without_tz
    ∧ Words.has_standalone_tz None without_tz = false
    ∧ split cleaned = split without_tz
    ∧ Words.collapsed cleaned = true.
Proof.
  destruct (@clean_date_string_steps Sample.world
              "Mon,  03 Jun 2024   10:00 EST " ltac:(done))
    as (s1 & s2 & out & Hc & Hw & _ & Hd & Hno & Hs & Hcol & _).
  exists s1, s2, out. split_and!; try done.
  apply (Hw "Mon" "  " "03 Jun 2024   10:00 EST "); reflexivity.
Defined.

(** ** Record assembly *)

Section Assembly.
Context `{World}.

Lemma truthy_ne (s : string) : truthy s = true ↔ s ≠ EmptyString.
Proof. destruct s; simpl; split; (done || congruence). Qed.

(** [parse_item] does not raise, and keeps an item exactly when its title
    and its link are not empty. *)
Lemma parse_item_ok (feed : Feed) (item : Node) :
  ∃ duration,
    calculate_duration (item_published item) = Ok duration
    ∧ parse_item feed item =
        Ok (if truthy (item_title item) && truthy (item_link item)
            then Some (mk_entry (item_title item) (item_summary item)
                         (item_published item) (item_link item)
                         (source feed) (country feed)
                         (item_language (item_title item) (item_summary item))
                         duration)
            else None).
Proof.
  destruct (calculate_duration_label (item_published item))
    as (duration & Hd & _).
  exists duration. split; [done|].
  unfold parse_item. rewrite Hd. by case_match.
Qed.

Lemma parse_items_entry_of (feed : Feed) (items : list Node) :
  ∀ entries,
    parse_items feed items entries
    = (entries ++ omap (entry_of feed) items, None).
Proof.
  induction items as [|item items IH]; intros entries; simpl.
  - by rewrite app_nil_r.
  - unfold entry_of at 1.
    destruct (parse_item_ok feed item) as (duration & _ & ->).
    case_match; rewrite IH; [|done].
    by rewrite <- app_assoc.
Qed.

End Assembly.



(** ** Deduplication *)

Section KeepFirst.
Variable subset : list string.
Implicit Types (seen : gset (list (option string))) (l : list Row).

Local Abbreviation key := (subset_key subset).

Lemma keep_first_cons seen r l :
  keep_first subset seen (r :: l)
  = if bool_decide (key r ∈ seen) then keep_first subset seen l
    else r :: keep_first subset ({[ key r ]} ∪ seen) l.
Proof. reflexivity. Qed.

Lemma keep_first_app seen l1 l2 :
  keep_first subset seen (l1 ++ l2)
  = keep_first subset seen l1
    ++ keep_first subset (list_to_set (key <$> l1) ∪ seen) l2.
Proof.
  revert seen. induction l1 as [|r l1 IH]; intros seen; simpl.
  - f_equal. set_solver.
  - case_bool_decide as Hin.
    + rewrite IH. do 2 f_equal. set_solver.
    + simpl. rewrite IH. do 3 f_equal. set_solver.
Qed.

Lemma keep_first_sublist seen l : sublist (keep_first subset seen l) l.
Proof.
  revert seen. induction l as [|r l IH]; intros seen; simpl; [done|].
  case_bool_decide; [apply sublist_cons|apply sublist_skip]; apply IH.
Qed.

Lemma keep_first_fresh seen l r :
  r ∈ keep_first subset seen l → key r ∉ seen.
Proof.
  revert seen. induction l as [|r' l IH]; intros seen; simpl.
  - by intros ?%elem_of_nil.
  - case_bool_decide as Hin; [apply IH|].
    intros [->|Hr%IH]%elem_of_cons; [done|]. set_solver.
Qed.

Lemma keep_first_NoDup seen l : NoDup (key <$> keep_first subset seen l).
Proof.
  revert seen. induction l as [|r l IH]; intros seen; simpl.
  - constructor.
  - case_bool_decide as Hin; [apply IH|].
    rewrite fmap_cons. constructor; [|apply IH].
    intros (r' & Hk & Hr'%keep_first_fresh)%list_elem_of_fmap.
    set_solver.
Qed.

Lemma keep_first_covers seen l r :
  r ∈ l → key r ∈ seen ∨ key r ∈ key <$> keep_first subset seen l.
Proof.
  revert seen. induction l as [|r' l IH]; intros seen; simpl.
  - by intros ?%elem_of_nil.
  - intros [->|Hr]%elem_of_cons.
    + case_bool_decide; [by left|]. right. set_solver.
    + case_bool_decide as Hin; [by apply IH|].
      destruct (IH ({[key r']} ∪ seen) Hr) as [Hs|Hk]; [|right; set_solver].
      apply elem_of_union in Hs as [->%elem_of_singleton|Hs]; [|by left].
      right. set_solver.
Qed.

(** A list without repeated keys is left as it is. *)
Lemma keep_first_id seen l :
  NoDup (key <$> l) → (∀ r, r ∈ l → key r ∉ seen) →
  keep_first subset seen l = l.
Proof.
  revert seen. induction l as [|r l IH]; intros seen Hnd Hseen; [done|].
  simpl. rewrite fmap_cons in Hnd. apply NoDup_cons in Hnd as [Hr Hnd].
  rewrite bool_decide_eq_false_2 by (apply Hseen; set_solver).
  f_equal. apply IH; [done|].
  intros r' Hr'. apply not_elem_of_union. split; [|apply Hseen; set_solver].
  intros Heq%elem_of_singleton. apply Hr. rewrite <- Heq.
  by apply list_elem_of_fmap_2.
Qed.

End KeepFirst.

Section RemoveDuplicates.

Local Abbreviation as_row := (fun e => mk_row e None).
Local Abbreviation title_link_key := (subset_key ["Title"; "Link"]).

Lemma subset_key_title_link (r : Row) :
  title_link_key r = pair_key (title_link (entry r)).
Proof. reflexivity. Qed.

Global Instance pair_key_inj : Inj (=) (=) pair_key.
Proof. intros [a b] [c d] [= -> ->]. done. Qed.

Lemma keys_of_rows (l : list Row) :
  title_link_key <$> l = pair_key <$> (title_link <$> (entry <$> l)).
Proof. by rewrite <- !list_fmap_compose. Qed.

Lemma entry_as_row (entries : list Entry) : entry <$> (as_row <$> entries) = entries.
Proof. rewrite <- list_fmap_compose. apply list_fmap_id. Qed.

Lemma as_row_entry (l : list Row) :
  Forall (fun r => NoOfArticles r = None) l → as_row <$> (entry <$> l) = l.
Proof.
  induction 1 as [|[e n] l Hn _ IH]; [done|].
  rewrite !fmap_cons, IH. simpl in Hn. by subst.
Qed.

(** The rows that [remove_duplicates] keeps. *)
Lemma remove_duplicates_rows (entries : list Entry) :
  remove_duplicates entries
  = Ok (mk_frame (columns (DataFrame_of entries))
          (keep_first ["Title"; "Link"] ∅ (as_row <$> entries))).
Proof. destruct entries; reflexivity. Qed.

Lemma keys_of_entries (entries : list Entry) :
  title_link_key <$> (as_row <$> entries)
  = pair_key <$> (title_link <$> entries).
Proof. by rewrite keys_of_rows, entry_as_row. Qed.

Lemma key_seen (e : Entry) (before : list Entry) :
  title_link_key (mk_row e None)
    ∈ (list_to_set (title_link_key <$> (as_row <$> before)) ∪ ∅
       : gset (list (option string)))
  ↔ title_link e ∈ title_link <$> before.
Proof.
  rewrite (right_id_L ∅ (∪)), elem_of_list_to_set, keys_of_entries.
  rewrite subset_key_title_link. apply list_elem_of_fmap_inj, _.
Qed.

Lemma sublist_fmap_1 {A B} (f : A → B) (l1 l2 : list A) :
  sublist l1 l2 → sublist (f <$> l1) (f <$> l2).
Proof.
  induction 1; rewrite ?fmap_cons; [constructor|by constructor..].
Qed.

Lemma Forall_sublist {A} (P : A → Prop) (l1 l2 : list A) :
  sublist l1 l2 → Forall P l2 → Forall P l1.
Proof.
  induction 1; intros Hl; [done| |].
  - apply Forall_cons in Hl as [? ?]. constructor; auto.
  - apply Forall_cons in Hl as [? ?]. auto.
Qed.

Lemma kept_sublist seen (entries : list Entry) :
  sublist (entry <$> keep_first ["Title"; "Link"] seen (as_row <$> entries))
          entries.
Proof.
  rewrite <- (entry_as_row entries) at 2.
  apply sublist_fmap_1, keep_first_sublist.
Qed.

End RemoveDuplicates.

(** C5: deduplication keeps, for every (Title, Link) pair of the batch, the
    first entry that carries it and drops every later one, whatever its
    source; the entries kept stay in their order.  Applying it again changes
    nothing, and two entries with the same pair collapse to the first. *)
Theorem remove_duplicates_first_wins (entries : list Entry) :
  ∃ df, remove_duplicates entries = Ok df
    ∧ let batch := to_dict_records df in
      sublist batch entries
      ∧ NoDup (title_link <$> batch)
      ∧ (∀ e, e ∈ entries → title_link e ∈ title_link <$> batch)
      ∧ (∀ before e after,
            entries = before ++ e :: after →
            title_link e ∉ title_link <$> before →
            ∃ kept_before kept_after,
              batch = kept_before ++ e :: kept_after
              ∧ sublist kept_before before ∧ sublist kept_after after)
      ∧ (∀ before e after,
            entries = before ++ e :: after →
            title_link e ∈ title_link <$> before →
            ∃ kept_before kept_after,
              batch = kept_before ++ kept_after
              ∧ sublist kept_before before ∧ sublist kept_after after)
      ∧ remove_duplicates batch = Ok df
      ∧ (∀ e1 e2, title_link e1 = title_link e2 →
                  remove_duplicates [e1; e2] = Ok (DataFrame_of [e1])).
Proof.
  eexists. split; [apply remove_duplicates_rows|].
  unfold to_dict_records. simpl. split_and!.
  - apply kept_sublist.
  - apply (NoDup_fmap_1 pair_key). rewrite <- keys_of_rows.
    apply keep_first_NoDup.
  - intros e He.
    destruct (keep_first_covers ["Title"; "Link"] ∅
                ((fun e => mk_row e None) <$> entries) (mk_row e None))
      as [Hin|Hin];
      [by apply (list_elem_of_fmap_2 (fun e => mk_row e None))|set_solver|].
    rewrite keys_of_rows, subset_key_title_link in Hin.
    by apply (list_elem_of_fmap_inj_2 pair_key) in Hin.
  - intros before e after -> Hfirst.
    rewrite fmap_app, fmap_cons, keep_first_app, keep_first_cons.
    rewrite bool_decide_eq_false_2 by by rewrite key_seen.
    rewrite fmap_app, fmap_cons. simpl.
    do 2 eexists. split; [done|]. split; apply kept_sublist.
  - intros before e after -> Hlater.
    rewrite fmap_app, fmap_cons, keep_first_app, keep_first_cons.
    rewrite bool_decide_eq_true_2 by by rewrite key_seen.
    rewrite fmap_app.
    do 2 eexists. split; [done|]. split; apply kept_sublist.
  - pose proof (keep_first_NoDup ["Title"; "Link"] ∅
                  ((fun e => mk_row e None) <$> entries)) as Hnd.
    pose proof (keep_first_sublist ["Title"; "Link"] ∅
                  ((fun e => mk_row e None) <$> entries)) as Hsub.
    assert (entries ≠ [] →
            keep_first ["Title"; "Link"] ∅
              ((fun e => mk_row e None) <$> entries) ≠ []) as Hne.
    { destruct entries; [done|]. intros _.
      rewrite fmap_cons, keep_first_cons.
      by rewrite bool_decide_eq_false_2 by set_solver. }
    revert Hnd Hsub Hne.
    generalize (keep_first ["Title"; "Link"] ∅
                  ((fun e => mk_row e None) <$> entries)).
    intros R Hnd Hsub Hne.
    rewrite remove_duplicates_rows, (as_row_entry R), (keep_first_id _ _ R).
    + do 2 f_equal. destruct entries as [|e entries].
      * apply sublist_nil_r in Hsub as ->. done.
      * destruct R; [by destruct Hne|done].
    + done.
    + set_solver.
    + apply (Forall_sublist _ _ ((fun e => mk_row e None) <$> entries));
        [done|].
      by apply Forall_fmap, Forall_true.
  - intros e1 e2 Heq. rewrite remove_duplicates_rows.
    rewrite !fmap_cons, fmap_nil, !keep_first_cons.
    rewrite bool_decide_eq_false_2 by set_solver.
    rewrite bool_decide_eq_true_2; [done|].
    rewrite !subset_key_title_link. simpl. rewrite Heq. set_solver.
Qed.

Lemma remove_duplicates_first_wins_witness :
  remove_duplicates
    [mk_entry "X" "s" "d" "http://a" "BBC" "UK" "en" "Today";
     mk_entry "Y" "s" "d" "http://b" "BBC" "UK" "en" "Today";
     mk_entry "X" "t" "e" "http://a" "CNN" "US" "en" "Older"]
  = Ok (DataFrame_of
          [mk_entry "X" "s" "d" "http://a" "BBC" "UK" "en" "Today";
           mk_entry "Y" "s" "d" "http://b" "BBC" "UK" "en" "Today"]).
Proof.
  destruct (remove_duplicates_first_wins
              [mk_entry "X" "s" "d" "http://a" "BBC" "UK" "en" "Today";
               mk_entry "Y" "s" "d" "http://b" "BBC" "UK" "en" "Today";
               mk_entry "X" "t" "e" "http://a" "CNN" "US" "en" "Older"])
    as (df & Hdf & _ & _ & _ & _ & Hlater & _).
  rewrite Hdf. f_equal.
  destruct (Hlater
              [mk_entry "X" "s" "d" "http://a" "BBC" "UK" "en" "Today";
               mk_entry "Y" "s" "d" "http://b" "BBC" "UK" "en" "Today"]
              (mk_entry "X" "t" "e" "http://a" "CNN" "US" "en" "Older") []
              eq_refl) as (kb & ka & Hb & _ & _).
  { vm_compute. set_solver. }
  vm_compute in Hdf. by injection Hdf as <-.
Defined.

(** ** Aggregate counts *)

Section Counts.
Implicit Types (m : gmap string nat).

Lemma total_insert_fresh m k n :
  m !! k = None → total (<[k:=n]> m) = (n + total m)%nat.
Proof.
  intros Hk. unfold total. apply map_fold_insert_L; [|done].
  intros. lia.
Qed.

Lemma total_insert m k n :
  (total (<[k:=n]> m) + default 0 (m !! k) = n + total m)%nat.
Proof.
  destruct (m !! k) as [v|] eqn:Hk; simpl.
  - rewrite <- (insert_delete_eq m), total_insert_fresh
      by apply lookup_delete_eq.
    unfold total at 2.
    rewrite (map_fold_delete_L _ _ k v m); [|intros; lia|done].
    fold (total (delete k m)). lia.
  - rewrite total_insert_fresh by done. lia.
Qed.

Lemma total_count_country m e : total (count_country m e) = S (total m).
Proof.
  unfold count_country.
  pose proof (total_insert m (Country e)
                (default 0 (m !! Country e) + 1)%nat). lia.
Qed.

Lemma total_foldl m entries :
  total (foldl count_country m entries) = (total m + length entries)%nat.
Proof.
  revert m. induction entries as [|e entries IH]; intros m; simpl.
  - lia.
  - rewrite IH, total_count_country. lia.
Qed.

Lemma occurrences_cons c e entries :
  occurrences c (e :: entries)
  = ((if decide (Country e = c) then 1 else 0) + occurrences c entries)%nat.
Proof.
  unfold occurrences. rewrite filter_cons. by case_decide.
Qed.

(** A count that is present is the number of entries seen, on top of what
    the dictionary held. *)
Lemma lookup_foldl m entries c :
  foldl count_country m entries !! c
  = match m !! c with
    | Some n => Some (n + occurrences c entries)%nat
    | None => if decide (occurrences c entries = 0%nat) then None
              else Some (occurrences c entries)
    end.
Proof.
  revert m. induction entries as [|e entries IH]; intros m.
  - simpl. unfold occurrences. simpl. destruct (m !! c); [f_equal; lia|done].
  - simpl. rewrite IH, occurrences_cons. unfold count_country.
    destruct (decide (Country e = c)) as [->|Hne].
    + rewrite lookup_insert_eq. destruct (m !! c); simpl.
      * f_equal. lia.
      * done.
    + rewrite lookup_insert_ne by done. destruct (m !! c); done.
Qed.

Lemma lookup_value_counts entries c :
  value_counts (Country <$> entries) !! c
  = if decide (occurrences c entries = 0%nat) then None
    else Some (occurrences c entries).
Proof.
  induction entries as [|e entries IH]; [done|].
  rewrite fmap_cons, occurrences_cons. simpl.
  destruct (decide (Country e = c)) as [->|Hne].
  - rewrite lookup_insert_eq, IH.
    repeat case_decide; simpl; try lia; f_equal; lia.
  - by rewrite lookup_insert_ne.
Qed.

Lemma lookup_country_counts_of entries c :
  country_counts_of entries !! c
  = if decide (occurrences c entries = 0%nat) then None
    else Some (occurrences c entries).
Proof. unfold country_counts_of. by rewrite lookup_foldl, lookup_empty. Qed.

Lemma occurrences_pos e entries :
  e ∈ entries → occurrences (Country e) entries ≠ 0%nat.
Proof.
  intros He. unfold occurrences.
  assert (e ∈ filter (fun e' => Country e' = Country e) entries) as Hin
    by by apply list_elem_of_filter.
  destruct (filter _ entries); [by apply elem_of_nil in Hin|done].
Qed.

(** The second loop of [_store_in_db] finds every count and writes it. *)
Lemma insert_all_ok (counts : gmap string nat) (batch entries : list Entry) :
  (∀ e, e ∈ entries → e ∈ batch) →
  (∀ c, counts !! c = if decide (occurrences c batch = 0%nat) then None
                      else Some (occurrences c batch)) →
  ∀ st, ∃ st',
    insert_all counts entries st = (st', Ok tt)
    ∧ files st' = files st ∧ stdout st' = stdout st
    ∧ ∀ row, row ∈ news_articles st' →
             row ∈ news_articles st
             ∨ (db_entry row ∈ batch
                ∧ NoofArticles row
                  = occurrences (Country (db_entry row)) batch).
Proof.
  intros Hsub Hcounts.
  induction entries as [|e entries IH]; intros st.
  - exists st. split_and!; auto.
  - simpl. rewrite Hcounts.
    destruct (decide _) as [Hz|_];
      [by apply occurrences_pos in Hz; [|apply Hsub; left]|].
    unfold mbind, M_bind, insert_or_ignore.
    destruct (existsb _ (news_articles st)).
    + destruct (IH (fun e' He' => Hsub e' (list_elem_of_further _ _ _ He')) st)
        as (st' & -> & ? & ? & ?). eauto 10.
    + destruct (IH (fun e' He' => Hsub e' (list_elem_of_further _ _ _ He'))
                  (mk_state (news_articles st ++
                               [mk_dbrow e (occurrences (Country e) batch)])
                     (files st) (stdout st)))
        as (st' & -> & ? & ? & Hrows).
      exists st'. split_and!; try done.
      intros row Hrow. destruct (Hrows row Hrow) as [Hin|?]; [|by right].
      simpl in Hin. apply elem_of_app in Hin as [?|Hin]; [by left|].
      apply list_elem_of_singleton in Hin as ->. right. simpl.
      split; [apply Hsub; left|done].
Qed.

Lemma getitem_Country (df : DataFrame) :
  "Country" ∈ columns df →
  getitem df "Country" = Ok (Country <$> to_dict_records df).
Proof.
  intros Hin. unfold getitem, to_dict_records.
  rewrite bool_decide_eq_true_2 by done. f_equal.
  induction (rows df) as [|r l IH]; [done|]. csimpl. by f_equal.
Qed.

Lemma entry_zip_with (l : list Row) (ns : list (option nat)) :
  length ns = length l →
  entry <$> zip_with (fun r n => mk_row (entry r) (Some n)) l ns
  = entry <$> l.
Proof.
  revert ns. induction l as [|r l IH]; intros [|n ns] Hlen; try done.
  csimpl. f_equal. apply IH. by injection Hlen.
Qed.

Lemma NoOfArticles_zip_with (l : list Row) (ns : list (option nat)) :
  length ns = length l →
  NoOfArticles <$> zip_with (fun r n => mk_row (entry r) (Some n)) l ns
  = Some <$> ns.
Proof.
  revert ns. induction l as [|r l IH]; intros [|n ns] Hlen; try done.
  csimpl. f_equal. apply IH. by injection Hlen.
Qed.

End Counts.

(** C6: the counts per country are computed from the batch at hand and
    from nothing else: the count of a country is the number of entries of
    the batch from that country, a country without entries has no count, and
    the counts add up to the size of the batch.  This holds for the counts
    that [_store_in_db] writes into the table and for the ones that
    [save_to_csv] writes into the file. *)
Theorem aggregate_counts_sum (entries : list Entry) :
  total (country_counts_of entries) = length entries
  ∧ (∀ c, country_counts_of entries !! c
          = if decide (occurrences c entries = 0%nat) then None
            else Some (occurrences c entries))
  ∧ value_counts (Country <$> entries) = country_counts_of entries
  ∧ (∀ st, ∃ st',
        _store_in_db entries st = (st', Ok tt)
        ∧ ∀ row, row ∈ news_articles st' →
                 row ∈ news_articles st
                 ∨ (db_entry row ∈ entries
                    ∧ NoofArticles row
                      = occurrences (Country (db_entry row)) entries))
  ∧ (∀ df st,
        to_dict_records df = entries → "Country" ∈ columns df →
        ∃ st' written,
          save_to_csv df st = (st', Ok tt)
          ∧ files st' !! "news_data.csv" = Some written
          ∧ to_dict_records written = entries
          ∧ NoOfArticles <$> rows written
            = (fun e => Some (Some (occurrences (Country e) entries)))
                <$> entries).
Proof.
  split_and!.
  - unfold country_counts_of. by rewrite total_foldl.
  - apply lookup_country_counts_of.
  - apply map_eq. intros c.
    by rewrite lookup_value_counts, lookup_country_counts_of.
  - intros st. unfold _store_in_db.
    destruct (insert_all_ok (country_counts_of entries) entries entries
                (fun _ H => H) (lookup_country_counts_of entries) st)
      as (st' & ? & _ & _ & ?). eauto.
  - intros df st <- Hcol. unfold save_to_csv.
    unfold mbind, M_bind, lift. rewrite getitem_Country by done.
    simpl. do 2 eexists. split; [done|]. simpl.
    split; [apply lookup_insert_eq|].
    unfold to_dict_records. simpl.
    rewrite entry_zip_with, NoOfArticles_zip_with
      by by rewrite !length_fmap.
    split; [done|].
    generalize (entry <$> rows df). intros entries.
    pose proof (lookup_value_counts entries) as Hcounts. revert Hcounts.
    generalize (value_counts (Country <$> entries)). intros counts Hcounts.
    rewrite <- !list_fmap_compose. apply list_fmap_ext.
    intros i e He%list_elem_of_lookup_2. simpl.
    rewrite Hcounts.
    case_decide as Hz; [|done].
    by apply occurrences_pos in Hz.
Qed.

Lemma aggregate_counts_sum_witness :
  ∃ st' written,
    save_to_csv
      (DataFrame_of
         [mk_entry "X" "s" "d" "http://a" "BBC" "UK" "en" "Today";
          mk_entry "Y" "s" "d" "http://b" "CNN" "US" "en" "Today";
          mk_entry "Z" "s" "d" "http://c" "BBC" "UK" "en" "Today"])
      Sample.empty_state = (st', Ok tt)
    ∧ files st' !! "news_data.csv" = Some written
    ∧ NoOfArticles <$> rows written
      = [Some (Some 2%nat); Some (Some 1%nat); Some (Some 2%nat)].
Proof.
  destruct (aggregate_counts_sum
              [mk_entry "X" "s" "d" "http://a" "BBC" "UK" "en" "Today";
               mk_entry "Y" "s" "d" "http://b" "CNN" "US" "en" "Today";
               mk_entry "Z" "s" "d" "http://c" "BBC" "UK" "en" "Today"])
    as (_ & _ & _ & _ & Hcsv).
  destruct (Hcsv (DataFrame_of
         [mk_entry "X" "s" "d" "http://a" "BBC" "UK" "en" "Today";
          mk_entry "Y" "s" "d" "http://b" "CNN" "US" "en" "Today";
          mk_entry "Z" "s" "d" "http://c" "BBC" "UK" "en" "Today"])
      Sample.empty_state eq_refl) as (st' & written & Hs & Hf & _ & Hn).
  { vm_compute. set_solver. }
  exists st', written. split_and!; [done|done|].
  rewrite Hn. reflexivity.
Defined.

(** ** Summary cleaning *)

Section Summary.
Import Words.







Lemma rstrip_idemp (s : string) : rstrip (rstrip s) = rstrip s.
Proof.
  induction s as [|c s IH]; [done|]. simpl.
  destruct (rstrip s) as [|d r] eqn:Hr.
  - destruct (isspace c) eqn:Hc; [done|]. simpl. by rewrite Hc.
  - simpl in *. by rewrite IH.
Qed.

Lemma lstrip_no_space (s : string) : starts_with_space (lstrip s) = false.
Proof.
  induction s as [|c s IH]; [done|]. simpl.
  destruct (isspace c) eqn:Hc; [done|]. simpl. done.
Qed.

Lemma rstrip_no_space (s : string) :
  starts_with_space s = false → starts_with_space (rstrip s) = false.
Proof.
  destruct s as [|c s]; [done|]. simpl. intros Hc.
  destruct (rstrip s); [by rewrite Hc|done].
Qed.

(** A stripped string has no whitespace at either end. *)
Lemma strip_trimmed (s : string) :
  starts_with_space (strip s) = false ∧ rstrip (strip s) = strip s.
Proof.
  unfold strip. split; [apply rstrip_no_space, lstrip_no_space|].
  apply rstrip_idemp.
Qed.


End Summary.




(** ** The run *)

Section Run.
Context `{World}.

Lemma parse_feed_fails (feed : Feed) (st : State) :
  feed_fails feed →
  ∃ line, parse_feed feed st = (printed st [line], Ok []).
Proof.
  intros Hfail. unfold parse_feed.
  destruct (is_url_accessible (url feed)) eqn:Hacc; simpl.
  - destruct Hfail as [?| ->]; [congruence|]. by eexists.
  - by eexists.
Qed.

Lemma printed_printed (st : State) (l1 l2 : list output) :
  printed (printed st l1) l2 = printed st (l1 ++ l2).
Proof. unfold printed. simpl. by rewrite <- app_assoc. Qed.

Lemma scrape_feeds_fail (rss_feeds : list Feed) :
  (∀ feed, feed ∈ rss_feeds → feed_fails feed) →
  ∀ all_entries st, ∃ lines,
    scrape_feeds rss_feeds all_entries st = (printed st lines, Ok all_entries).
Proof.
  induction rss_feeds as [|feed rss_feeds IH]; intros Hfail all_entries st.
  - exists []. unfold printed. rewrite app_nil_r. by destruct st.
  - simpl. unfold mbind, M_bind.
    change (print (Processing (country feed) (source feed)) st)
      with (printed st [Processing (country feed) (source feed)], Ok tt).
    destruct (parse_feed_fails feed
                (printed st [Processing (country feed) (source feed)]))
      as [line ->]; [apply Hfail; by left|].
    change (print (Added (length [])) ?s) with (printed s [Added 0], Ok tt).
    rewrite !printed_printed, app_nil_r.
    destruct (IH (fun f Hf => Hfail f (list_elem_of_further _ _ _ Hf))
                all_entries
                (printed st ([Processing (country feed) (source feed)]
                             ++ [line] ++ [Added 0])))
      as [lines ->].
    rewrite printed_printed. by eexists.
Qed.

End Run.

(** C2, on the code: when every source fails the run does not complete.
    The batch is empty, the frame built from it has no columns, the store
    and the line that reports 0 stored entries go through, and then
    [save_to_csv] raises [KeyError] on [df['Country']]: no file is written
    and the closing line is not printed. *)
Theorem run_raises_when_every_feed_fails `{World} (rss_feeds : list Feed)
    (st : State) :
  (∀ feed, feed ∈ rss_feeds → feed_fails feed) →
  ∃ lines,
    run rss_feeds st
    = (mk_state (news_articles st) (files st)
         (stdout st ++ JobStarted :: lines ++ [Stored 0 db_name]),
       Raise (KeyError "Country")).
Proof.
  intros Hfail. unfold run, scrape_all_feeds, mbind, M_bind.
  change (print JobStarted st) with (printed st [JobStarted], Ok tt).
  destruct (scrape_feeds_fail rss_feeds Hfail [] (printed st [JobStarted]))
    as [lines ->].
  exists lines. simpl. by rewrite <- !app_assoc.
Qed.

Lemma run_raises_when_every_feed_fails_witness :
  @feed_fails Sample.world Sample.dead_feed
  ∧ ∃ lines,
      @run Sample.world [Sample.dead_feed] Sample.empty_state
      = (mk_state [] ∅ (JobStarted :: lines ++ [Stored 0 "news.db"]),
         Raise (KeyError "Country")).
Proof.
  split; [by left|].
  apply (@run_raises_when_every_feed_fails Sample.world
           [Sample.dead_feed] Sample.empty_state).
  intros feed ->%list_elem_of_singleton. by left.
Defined.

(** * Part III: the rest of the program *)

(** ** The table *)

Section Table.

Lemma existsb_link (row : DbRow) (table : list DbRow) :
  existsb (fun r => String.eqb (Link (db_entry r)) (Link (db_entry row))) table
  = bool_decide (Link (db_entry row) ∈ links table).
Proof.
  induction table as [|r table IH]; [done|].
  cbn [existsb]. rewrite IH. unfold links. rewrite fmap_cons.
  destruct (String.eqb_spec (Link (db_entry r)) (Link (db_entry row)))
    as [Heq|Hne].
  - symmetry. apply bool_decide_eq_true. rewrite Heq. by left.
  - apply bool_decide_ext. rewrite elem_of_cons. naive_solver.
Qed.

Lemma insert_or_ignore_seen (row : DbRow) (st : State) :
  Link (db_entry row) ∈ links (news_articles st) →
  insert_or_ignore row st = (st, Ok tt).
Proof.
  intros Hin. unfold insert_or_ignore.
  by rewrite existsb_link, bool_decide_eq_true_2.
Qed.

Lemma insert_or_ignore_fresh (row : DbRow) (st : State) :
  Link (db_entry row) ∉ links (news_articles st) →
  insert_or_ignore row st
  = (mk_state (news_articles st ++ [row]) (files st) (stdout st), Ok tt).
Proof.
  intros Hin. unfold insert_or_ignore.
  by rewrite existsb_link, bool_decide_eq_false_2.
Qed.

Lemma links_app (t1 t2 : list DbRow) : links (t1 ++ t2) = links t1 ++ links t2.
Proof. apply fmap_app. Qed.

(** What the insertion loop does to the table: rows are appended, one for
    each link that the table did not hold, taken from the first entry that
    carries the link. *)
Lemma insert_all_rows (counts : gmap string nat) (entries : list Entry) :
  (∀ e, e ∈ entries → is_Some (counts !! Country e)) →
  ∀ st, ∃ new,
    insert_all counts entries st
    = (mk_state (news_articles st ++ new) (files st) (stdout st), Ok tt)
    ∧ NoDup (links new)
    ∧ (∀ l, l ∈ links new → l ∉ links (news_articles st))
    ∧ sublist (db_entry <$> new) entries
    ∧ (∀ r, r ∈ new → counts !! Country (db_entry r) = Some (NoofArticles r))
    ∧ (∀ e, e ∈ entries → Link e ∈ links (news_articles st ++ new))
    ∧ (∀ before e after,
          entries = before ++ e :: after →
          Link e ∉ links (news_articles st) →
          Link e ∉ Link <$> before →
          ∃ n, counts !! Country e = Some n ∧ mk_dbrow e n ∈ new).
Proof.
  induction entries as [|e entries IH]; intros Hcounts st.
  - exists []. rewrite app_nil_r. split_and!; try done.
    + by destruct st.
    + constructor.
    + by intros ? ?%elem_of_nil.
    + by intros ? ?%elem_of_nil.
    + by intros ? ?%elem_of_nil.
    + by intros [|??] ? ? ?.
  - simpl. destruct (Hcounts e) as [n Hn]; [by left|]. rewrite Hn.
    assert (∀ e', e' ∈ entries → is_Some (counts !! Country e')) as Hcounts'
      by (intros; apply Hcounts; by right).
    unfold mbind, M_bind.
    destruct (decide (Link e ∈ links (news_articles st))) as [Hseen|Hfresh].
    + rewrite insert_or_ignore_seen by done.
      destruct (IH Hcounts' st)
        as (new & -> & Hnd & Hnew & Hsub & Hcnt & Hcov & Hfirst).
      exists new. split_and!; try done.
      * by apply sublist_cons.
      * intros e' [->|He']%elem_of_cons; [|by apply Hcov].
        rewrite links_app. apply elem_of_app. by left.
      * intros [|b before] e' after Heq Hold Hbefore;
          injection Heq as <- ->.
        -- done.
        -- apply (Hfirst before e' after eq_refl Hold).
           intros Hin. apply Hbefore. rewrite fmap_cons. by right.
    + rewrite insert_or_ignore_fresh by done.
      destruct (IH Hcounts'
                  (mk_state (news_articles st ++ [mk_dbrow e n])
                     (files st) (stdout st)))
        as (new & -> & Hnd & Hnew & Hsub & Hcnt & Hcov & Hfirst).
      simpl in *. exists (mk_dbrow e n :: new).
      rewrite <- app_assoc. split_and!; try done.
      * unfold links. rewrite fmap_cons. apply NoDup_cons. split; [|done].
        intros Hin%Hnew. apply Hin. rewrite links_app.
        apply elem_of_app. right. by left.
      * unfold links at 1. rewrite fmap_cons.
        intros l [->|Hl%Hnew]%elem_of_cons; [done|].
        intros Hin. apply Hl. rewrite links_app. apply elem_of_app. by left.
      * rewrite fmap_cons. by apply sublist_skip.
      * intros r [->|Hr]%elem_of_cons; [done|]. by apply Hcnt.
      * intros e' [->|He']%elem_of_cons.
        -- rewrite links_app. apply elem_of_app. right. by left.
        -- specialize (Hcov e' He'). by rewrite <- app_assoc in Hcov.
      * intros [|b before] e' after Heq Hold Hbefore;
          injection Heq as <- ->.
        -- exists n. split; [done|]. by left.
        -- destruct (Hfirst before e' after eq_refl) as (n' & ? & ?).
           ++ rewrite links_app. intros [?|Hin]%elem_of_app; [done|].
              apply Hbefore. rewrite fmap_cons. apply elem_of_cons. left.
              by apply list_elem_of_singleton in Hin.
           ++ intros Hin. apply Hbefore. rewrite fmap_cons. by right.
           ++ exists n'. split; [done|]. by right.
Qed.

Lemma country_counts_of_is_Some (entries : list Entry) (e : Entry) :
  e ∈ entries → country_counts_of entries !! Country e
                = Some (occurrences (Country e) entries).
Proof.
  intros He. rewrite lookup_country_counts_of.
  case_decide as Hz; [|done]. by apply occurrences_pos in Hz.
Qed.

(** [_store_in_db], with the counts of the batch. *)
Lemma store_in_db_rows (entries : list Entry) (st : State) :
  ∃ new,
    _store_in_db entries st
    = (mk_state (news_articles st ++ new) (files st) (stdout st), Ok tt)
    ∧ NoDup (links new)
    ∧ (∀ l, l ∈ links new → l ∉ links (news_articles st))
    ∧ sublist (db_entry <$> new) entries
    ∧ (∀ r, r ∈ new →
            NoofArticles r = occurrences (Country (db_entry r)) entries)
    ∧ (∀ e, e ∈ entries → Link e ∈ links (news_articles st ++ new))
    ∧ (∀ before e after,
          entries = before ++ e :: after →
          Link e ∉ links (news_articles st) →
          Link e ∉ Link <$> before →
          mk_dbrow e (occurrences (Country e) entries) ∈ new).
Proof.
  unfold _store_in_db.
  destruct (insert_all_rows (country_counts_of entries) entries) with (st := st)
    as (new & Hrun & Hnd & Hnew & Hsub & Hcnt & Hcov & Hfirst).
  { intros e He. rewrite country_counts_of_is_Some by done. by eexists. }
  assert (∀ r, r ∈ new → db_entry r ∈ entries) as Hin.
  { intros r Hr. apply (elem_of_sublist (db_entry <$> new)); [|done].
    by apply list_elem_of_fmap_2. }
  exists new. split_and!; try done.
  - intros r Hr. specialize (Hcnt r Hr).
    rewrite country_counts_of_is_Some in Hcnt by auto. by injection Hcnt.
  - intros before e after Heq Hold Hbefore.
    destruct (Hfirst before e after Heq Hold Hbefore) as (n & Hn & Hrow).
    rewrite country_counts_of_is_Some in Hn by (rewrite Heq; set_solver).
    by injection Hn as <-.
Qed.

End Table.





Section StoreAgain.



End StoreAgain.



(** ** Collecting the entries *)

Section Collect.
Context `{World}.

Lemma printed_nil (st : State) : printed st [] = st.
Proof. unfold printed. rewrite app_nil_r. by destruct st. Qed.

(** [parse_feed] computes [feed_entries], prints [feed_error], and does
    nothing else. *)
Lemma parse_feed_entries (feed : Feed) (st : State) :
  parse_feed feed st = (printed st (feed_error feed), Ok (feed_entries feed)).
Proof.
  unfold parse_feed, feed_entries, feed_error.
  destruct (is_url_accessible (url feed)); simpl; [|done].
  destruct (fetch_soup (url feed)) as [soup|]; [|done].
  fold (items_of soup). rewrite parse_items_entry_of. simpl.
  by rewrite printed_nil.
Qed.

Lemma scrape_feeds_entries (rss_feeds : list Feed) :
  ∀ all_entries st,
    scrape_feeds rss_feeds all_entries st
    = (printed st (all_lines_of rss_feeds),
       Ok (all_entries ++ all_entries_of rss_feeds)).
Proof.
  unfold all_lines_of, all_entries_of.
  induction rss_feeds as [|feed rss_feeds IH]; intros all_entries st.
  - simpl. by rewrite printed_nil, app_nil_r.
  - simpl. unfold mbind, M_bind.
    change (print (Processing (country feed) (source feed)) st)
      with (printed st [Processing (country feed) (source feed)], Ok tt).
    cbv beta iota. rewrite parse_feed_entries.
    change (print (Added (length (feed_entries feed))) ?s)
      with (printed s [Added (length (feed_entries feed))], Ok tt).
    cbv beta iota. rewrite IH, !printed_printed, <- !app_assoc. done.
Qed.

(** What every entry of a source looks like. *)
Lemma feed_entries_shape (feed : Feed) (e : Entry) :
  e ∈ feed_entries feed →
  ∃ item,
    e = mk_entry (item_title item) (item_summary item) (item_published item)
          (item_link item) (source feed) (country feed)
          (item_language (item_title item) (item_summary item)) (Duration e)
    ∧ calculate_duration (item_published item) = Ok (Duration e)
    ∧ item_title item ≠ EmptyString ∧ item_link item ≠ EmptyString.
Proof.
  unfold feed_entries.
  destruct (is_url_accessible (url feed)); [|by intros ?%elem_of_nil].
  destruct (fetch_soup (url feed)) as [soup|]; [|by intros ?%elem_of_nil].
  intros (item & _ & He)%list_elem_of_omap. exists item.
  unfold entry_of in He.
  destruct (parse_item_ok feed item) as (duration & Hd & Hitem).
  rewrite Hitem in He.
  destruct (truthy (item_title item)) eqn:Ht; [|done].
  destruct (truthy (item_link item)) eqn:Hl; [|done].
  simpl in He. injection He as <-. simpl.
  split_and!; [done|done|by apply truthy_ne|by apply truthy_ne].
Qed.

Lemma elem_of_concat {A} (x : A) (ls : list (list A)) :
  x ∈ concat ls ↔ ∃ l, l ∈ ls ∧ x ∈ l.
Proof.
  rewrite list_elem_of_In, in_concat.
  by setoid_rewrite <- list_elem_of_In.
Qed.

Lemma elem_of_all_entries_of (rss_feeds : list Feed) (e : Entry) :
  e ∈ all_entries_of rss_feeds
  ↔ ∃ feed, feed ∈ rss_feeds ∧ e ∈ feed_entries feed.
Proof.
  unfold all_entries_of. rewrite elem_of_concat. split.
  - intros (l & (feed & -> & Hfeed)%list_elem_of_fmap & He). eauto.
  - intros (feed & Hfeed & He). exists (feed_entries feed).
    split; [by apply list_elem_of_fmap_2|done].
Qed.

Lemma lstrip_id (s : string) :
  Words.starts_with_space s = false → lstrip s = s.
Proof. destruct s; [done|]. simpl. by intros ->. Qed.

Lemma strip_idemp (s : string) : strip (strip s) = strip s.
Proof.
  destruct (strip_trimmed s) as [Hstart Hend].
  unfold strip at 1. by rewrite lstrip_id.
Qed.

(** A stripped string that is not empty starts with a character that is
    not whitespace, and so does whatever is appended to it. *)
Lemma truthy_strip_app (x rest : string) :
  strip x ≠ EmptyString → truthy (strip (strip x +:+ rest)) = true.
Proof.
  intros Hne. destruct (strip_trimmed x) as [Hstart _].
  destruct (strip x) as [|c t]; [done|]. clear Hne.
  simpl in Hstart. rewrite app_cons. unfold strip. simpl. rewrite Hstart.
  simpl. by destruct (rstrip (t +:+ rest)); [rewrite Hstart|].
Qed.

End Collect.



(** X5: every entry that [scrape_all_feeds] collects has a title and a link
    that are not empty, a title without whitespace at its ends, one of the
    six labels of a parsed date or Unknown, and the source and the country
    of one of the configured feeds.  Collecting raises nothing and touches
    neither the table nor the files. *)
Theorem scraped_entries_are_well_formed `{World} (rss_feeds : list Feed)
    (st : State) :
  ∃ lines batch,
    scrape_all_feeds rss_feeds st = (printed st lines, Ok batch)
    ∧ ∀ e, e ∈ batch →
           Title e ≠ EmptyString ∧ Link e ≠ EmptyString
           ∧ strip (Title e) = Title e
           ∧ Duration e ∈ labels
           ∧ ∃ feed, feed ∈ rss_feeds
                     ∧ Source e = source feed ∧ Country e = country feed.
Proof.
  do 2 eexists. unfold scrape_all_feeds.
  rewrite scrape_feeds_entries. split; [done|]. simpl.
  intros e (feed & Hfeed & He)%elem_of_all_entries_of.
  destruct (feed_entries_shape feed e He) as (item & Heq & Hd & Ht & Hl).
  destruct (calculate_duration_label (item_published item))
    as (label & Hlabel & Hin).
  rewrite Hd in Hlabel. injection Hlabel as ->.
  rewrite Heq. simpl. split_and!; try done.
  - unfold item_title. destruct (Soup.find "title" item) as [t|]; [|done].
    apply strip_idemp.
  - by exists feed.
Qed.

(** X6: a source that fails does not change what the other sources give:
    the batch collected with the failing source in the list is the batch
    collected without it, and the run goes on to the sources after it. *)
Theorem failing_feed_is_isolated `{World} (before after : list Feed)
    (feed : Feed) (st : State) :
  feed_fails feed →
  ∃ lines lines' batch,
    scrape_all_feeds (before ++ feed :: after) st = (printed st lines, Ok batch)
    ∧ scrape_all_feeds (before ++ after) st = (printed st lines', Ok batch).
Proof.
  intros Hfail. do 3 eexists. unfold scrape_all_feeds.
  rewrite !scrape_feeds_entries. split; [done|]. do 2 f_equal.
  unfold all_entries_of. rewrite !fmap_app, fmap_cons, !concat_app.
  f_equal. simpl.
  assert (feed_entries feed = []) as ->; [|done].
  unfold feed_entries. destruct Hfail as [-> | ->]; [done|].
  by destruct (is_url_accessible (url feed)).
Qed.

Lemma failing_feed_is_isolated_witness :
  ∃ lines lines' batch,
    @scrape_all_feeds Sample.world
      ([Sample.feed] ++ Sample.dead_feed :: [Sample.feed]) Sample.empty_state
    = (printed Sample.empty_state lines, Ok batch)
    ∧ @scrape_all_feeds Sample.world ([Sample.feed] ++ [Sample.feed])
        Sample.empty_state
      = (printed Sample.empty_state lines', Ok batch).
Proof.
  apply (@failing_feed_is_isolated Sample.world). by left.
Defined.

(** X7: for every entry collected, the language is the answer of the
    detector on the title and the summary joined by a space and stripped,
    and "unknown" only when the detector raises: the text of a kept item
    is never empty, so the detector is always asked. *)
Theorem scraped_language_is_detected `{World} (rss_feeds : list Feed)
    (st : State) :
  ∃ lines batch,
    scrape_all_feeds rss_feeds st = (printed st lines, Ok batch)
    ∧ ∀ e, e ∈ batch →
           Language e
           = match detect (strip (Title e +:+ " " +:+ Summary e)) with
             | Some language => language
             | None => "unknown"
             end.
Proof.
  do 2 eexists. unfold scrape_all_feeds.
  rewrite scrape_feeds_entries. split; [done|]. simpl.
  intros e (feed & Hfeed & He)%elem_of_all_entries_of.
  destruct (feed_entries_shape feed e He) as (item & Heq & Hd & Ht & Hl).
  rewrite Heq. simpl. unfold item_language.
  assert (truthy (strip (item_title item +:+ " " +:+ item_summary item))
          = true) as ->; [|done].
  revert Ht. unfold item_title.
  destruct (Soup.find "title" item) as [t|]; [|done]. simpl.
  apply truthy_strip_app.
Qed.

(** ** Export and the whole run *)

Section SaveCsv.

(** The frame that [save_to_csv] writes. *)
Lemma save_to_csv_ok (df : DataFrame) (st : State) :
  "Country" ∈ columns df →
  save_to_csv df st
  = (mk_state (news_articles st)
       (<[ "news_data.csv" :=
             setitem_NoOfArticles df
               ((fun c => value_counts (Country <$> to_dict_records df) !! c)
                  <$> (Country <$> to_dict_records df)) ]> (files st))
       (stdout st ++ [Saved "news_data.csv"]),
     Ok tt).
Proof.
  intros Hin. unfold save_to_csv, mbind, M_bind, lift.
  by rewrite getitem_Country.
Qed.

Lemma save_to_csv_raises (df : DataFrame) (st : State) :
  "Country" ∉ columns df →
  save_to_csv df st = (st, Raise (KeyError "Country")).
Proof.
  intros Hin. unfold save_to_csv, mbind, M_bind, lift, getitem.
  by rewrite bool_decide_eq_false_2.
Qed.

Lemma columns_DataFrame_of (entries : list Entry) :
  "Country" ∈ columns (DataFrame_of entries) ↔ entries ≠ [].
Proof.
  destruct entries; simpl.
  - split; [by intros ?%elem_of_nil|done].
  - split; [done|]. intros _. unfold entry_columns. set_solver.
Qed.

Lemma length_setitem (df : DataFrame) (series : list (option nat)) :
  length series = length (rows df) →
  length (rows (setitem_NoOfArticles df series)) = length (rows df).
Proof. intros Hlen. simpl. rewrite length_zip_with. lia. Qed.

Context `{World}.

(** The steps of [run], with the batch and the lines of the collection. *)
Lemma run_steps (rss_feeds : list Feed) (st : State) :
  run rss_feeds st
  = let entries := all_entries_of rss_feeds in
    let df := mk_frame (columns (DataFrame_of entries))
                (keep_first ["Title"; "Link"] ∅
                   ((fun e => mk_row e None) <$> entries)) in
    match _store_in_db (deduplicated entries)
            (printed st (JobStarted :: all_lines_of rss_feeds)) with
    | (st2, Ok _) =>
        match save_to_csv df
                (printed st2 [Stored (length (deduplicated entries)) db_name])
        with
        | (st3, Ok _) => (printed st3 [JobFinished], Ok tt)
        | (st3, Raise e) => (st3, Raise e)
        end
    | (st2, Raise e) => (st2, Raise e)
    end.
Proof.
  unfold run, scrape_all_feeds, mbind, M_bind.
  change (print JobStarted st) with (printed st [JobStarted], Ok tt).
  cbv beta iota. rewrite scrape_feeds_entries, printed_printed. simpl app.
  unfold lift. rewrite remove_duplicates_rows. cbv beta iota zeta.
  unfold to_dict_records, deduplicated. simpl rows.
  destruct (_store_in_db _ _) as [st2 [[]|e]]; [|done].
  rewrite length_fmap.
  change (print (Stored ?n db_name) st2) with (printed st2 [Stored n db_name], Ok tt).
  cbv beta iota.
  destruct (save_to_csv _ _) as [st3 [[]|e]]; done.
Qed.

(** The table after a run: the table before, and the new rows. *)
Lemma run_table (rss_feeds : list Feed) (st : State) :
  ∃ new,
    news_articles (run rss_feeds st).1 = news_articles st ++ new
    ∧ NoDup (links new)
    ∧ (∀ l, l ∈ links new → l ∉ links (news_articles st))
    ∧ (∀ e, e ∈ deduplicated (all_entries_of rss_feeds) →
            Link e ∈ links (news_articles st ++ new)).
Proof.
  rewrite run_steps. cbv zeta.
  destruct (store_in_db_rows (deduplicated (all_entries_of rss_feeds))
              (printed st (JobStarted :: all_lines_of rss_feeds)))
    as (new & -> & Hnd & Hnew & _ & _ & Hcov & _).
  exists new. simpl in *. split; [|done].
  set (df := mk_frame _ _).
  destruct (decide ("Country" ∈ columns df)) as [Hin|Hin].
  - by rewrite save_to_csv_ok.
  - by rewrite save_to_csv_raises.
Qed.


End SaveCsv.

Section Deduplicated.

Lemma deduplicated_sublist (entries : list Entry) :
  sublist (deduplicated entries) entries.
Proof. apply kept_sublist. Qed.

Lemma deduplicated_NoDup (entries : list Entry) :
  NoDup (title_link <$> deduplicated entries).
Proof.
  unfold deduplicated. apply (NoDup_fmap_1 pair_key).
  rewrite <- keys_of_rows. apply keep_first_NoDup.
Qed.

Lemma deduplicated_covers (entries : list Entry) (e : Entry) :
  e ∈ entries → title_link e ∈ title_link <$> deduplicated entries.
Proof.
  intros He. unfold deduplicated.
  destruct (keep_first_covers ["Title"; "Link"] ∅
              ((fun e => mk_row e None) <$> entries) (mk_row e None))
    as [Hin|Hin];
    [by apply (list_elem_of_fmap_2 (fun e => mk_row e None))|set_solver|].
  rewrite keys_of_rows, subset_key_title_link in Hin.
  by apply (list_elem_of_fmap_inj_2 pair_key) in Hin.
Qed.

Lemma deduplicated_nil (entries : list Entry) :
  deduplicated entries = [] ↔ entries = [].
Proof.
  split; [|by intros ->].
  destruct entries as [|e entries]; [done|]. intros Hnil.
  pose proof (deduplicated_covers (e :: entries) e) as Hin.
  rewrite Hnil in Hin. by apply elem_of_nil in Hin; [|left].
Qed.

(** The size of the batch is the number of distinct pairs. *)
Lemma length_deduplicated (entries : list Entry) :
  length (deduplicated entries)
  = size (list_to_set (title_link <$> entries) : gset (string * string)).
Proof.
  rewrite <- (length_fmap title_link).
  rewrite <- (size_list_to_set (C := gset (string * string)))
    by apply deduplicated_NoDup.
  f_equal. apply set_eq. intros k. rewrite !elem_of_list_to_set. split.
  - intros (e & -> & He)%list_elem_of_fmap. apply list_elem_of_fmap_2.
    by apply (elem_of_sublist (deduplicated entries)),
             deduplicated_sublist.
  - intros (e & -> & He)%list_elem_of_fmap. by apply deduplicated_covers.
Qed.

End Deduplicated.

(** X8: [save_to_csv] needs the column Country.  On a frame that has it,
    the file news_data.csv is replaced by the frame with the column
    NoOfArticles added (once), all rows and all other columns kept, the
    table is left alone and one line is printed.  On a frame without it, as
    the frame of an empty batch is, [KeyError] is raised before anything is
    written or printed.  The frame that [remove_duplicates] builds has the
    column exactly when the batch is not empty. *)
Theorem save_to_csv_cases (df : DataFrame) (st : State) :
  ("Country" ∈ columns df →
   ∃ written,
     save_to_csv df st
     = (mk_state (news_articles st)
          (<[ "news_data.csv" := written ]> (files st))
          (stdout st ++ [Saved "news_data.csv"]), Ok tt)
     ∧ to_dict_records written = to_dict_records df
     ∧ "NoOfArticles" ∈ columns written
     ∧ (∀ c, c ∈ columns written ↔ c ∈ columns df ∨ c = "NoOfArticles")
     ∧ (NoDup (columns df) → NoDup (columns written)))
  ∧ ("Country" ∉ columns df →
     save_to_csv df st = (st, Raise (KeyError "Country")))
  ∧ (∀ entries, ∃ frame,
        remove_duplicates entries = Ok frame
        ∧ ("Country" ∈ columns frame ↔ entries ≠ [])).
Proof.
  split_and!.
  - intros Hin. eexists. split; [by apply save_to_csv_ok|].
    unfold to_dict_records. simpl.
    rewrite entry_zip_with by by rewrite !length_fmap.
    split; [done|].
    case_bool_decide as Hcol.
    + split_and!; [done| |done]. intros c. split; [by left|].
      by intros [?| ->].
    + split_and!.
      * apply elem_of_app. right. by left.
      * intros c. rewrite elem_of_app, list_elem_of_singleton. done.
      * intros Hnd. apply NoDup_app. split_and!; [done| |apply NoDup_singleton].
        by intros c Hc ->%list_elem_of_singleton.
  - apply save_to_csv_raises.
  - intros entries. eexists. split; [apply remove_duplicates_rows|].
    apply columns_DataFrame_of.
Qed.

Lemma save_to_csv_cases_witness :
  ∃ written,
    save_to_csv
      (DataFrame_of [mk_entry "X" "s" "d" "http://a" "BBC" "UK" "en" "Today"])
      (mk_state [] {[ "news_data.csv" := mk_frame [] [] ]} [])
    = (mk_state [] {[ "news_data.csv" := written ]} [Saved "news_data.csv"],
       Ok tt)
    ∧ "NoOfArticles" ∈ columns written.
Proof.
  destruct (save_to_csv_cases
              (DataFrame_of
                 [mk_entry "X" "s" "d" "http://a" "BBC" "UK" "en" "Today"])
              (mk_state [] {[ "news_data.csv" := mk_frame [] [] ]} []))
    as (Hok & _).
  destruct Hok as (written & Hrun & _ & Hcol & _).
  { vm_compute. set_solver. }
  exists written. split; [|done]. rewrite Hrun. simpl.
  by rewrite insert_singleton_eq.
Defined.




(** X11: a run never rewrites or removes a row of the table: the table
    before the run is the beginning of the table after it, so a row of an
    earlier run keeps the count it was stored with; and when the links of
    the table are pairwise distinct before the run, they are so after it,
    whether the run completes or raises. *)
Theorem run_keeps_earlier_rows `{World} (rss_feeds : list Feed) (st : State) :
  ∃ new,
    news_articles (run rss_feeds st).1 = news_articles st ++ new
    ∧ (NoDup (links (news_articles st)) →
       NoDup (links (news_articles (run rss_feeds st).1))).
Proof.
  destruct (run_table rss_feeds st) as (new & Htable & Hnd & Hnew & _).
  exists new. split; [done|]. intros Hold.
  rewrite Htable, links_app. apply NoDup_app. split_and!; [done| |done].
  intros l Hl Hin. by apply (Hnew l).
Qed.

Lemma run_keeps_earlier_rows_witness :
  ∃ new,
    news_articles
      (@run Sample.world [Sample.feed]
         (mk_state
            [mk_dbrow (mk_entry "O" "s" "d" "http://a" "BBC" "UK" "en" "Today")
               7] ∅ [])).1
    = [mk_dbrow (mk_entry "O" "s" "d" "http://a" "BBC" "UK" "en" "Today") 7]
      ++ new
    ∧ NoDup (links (news_articles
         (@run Sample.world [Sample.feed]
            (mk_state
               [mk_dbrow (mk_entry "O" "s" "d" "http://a" "BBC" "UK" "en"
                            "Today") 7] ∅ [])).1)).
Proof.
  destruct (@run_keeps_earlier_rows Sample.world [Sample.feed]
              (mk_state
                 [mk_dbrow (mk_entry "O" "s" "d" "http://a" "BBC" "UK" "en"
                              "Today") 7] ∅ [])) as (new & Htable & Hnd).
  exists new. split; [exact Htable|]. apply Hnd.
  vm_compute. apply NoDup_singleton.
Defined.

(** ** More on the date normalizer *)

Section Dates.
Context `{World}.

Lemma bucket_not_unknown (d : Z) : bucket d ≠ "Unknown".
Proof. unfold bucket. repeat case_match; done. Qed.

Lemma try_formats_None (fmts : list string) (cleaned_date : string) :
  (try_formats fmts cleaned_date).1 = None
  ↔ Forall (fun f => strptime cleaned_date f = None) fmts.
Proof.
  induction fmts as [|fmt fmts IH]; simpl.
  - split; [constructor|done].
  - destruct (strptime cleaned_date fmt) as [d|] eqn:Hf; simpl.
    + split; [done|]. intros Hall. apply Forall_cons in Hall as [? _].
      congruence.
    + destruct (try_formats fmts cleaned_date) as [r tried]. simpl in *.
      rewrite IH. split; [by constructor|].
      by intros [_ ?]%Forall_cons.
Qed.

Lemma parse_published_None (cleaned_date : string) :
  (parse_published cleaned_date).1 = None
  ↔ parser_parse cleaned_date = None
    ∧ Forall (fun f => strptime cleaned_date f = None) date_formats.
Proof.
  unfold parse_published. rewrite <- try_formats_None.
  generalize (try_formats date_formats cleaned_date). intros [o tried].
  destruct (parser_parse cleaned_date); simpl.
  - split; [done|]. by intros [? _].
  - split; [by intros ->|]. by intros [_ ?].
Qed.

Lemma bucket_mono (d1 d2 : Z) :
  0 ≤ d1 ≤ d2 → (label_rank (bucket d1) ≤ label_rank (bucket d2))%nat.
Proof.
  intros Hd. unfold bucket.
  repeat case_match; try lia; vm_compute; lia.
Qed.

End Dates.

(** X12: the label Unknown stands for a date that was not read, and for
    nothing else: [calculate_duration] answers Unknown exactly when the raw
    string is empty, or cleans to the empty string, or is refused by the
    flexible parser and by each of the eleven patterns.  A date that is
    read never gets Unknown. *)
Theorem unknown_iff_not_parsed `{World} (published_date : string) :
  (calculate_duration published_date = Ok "Unknown"
   ↔ parsed_date published_date = None)
  ∧ (parsed_date published_date = None
     ↔ published_date = EmptyString
       ∨ clean_date_string published_date = Some EmptyString
       ∨ ∃ cleaned_date,
           clean_date_string published_date = Some cleaned_date
           ∧ parser_parse cleaned_date = None
           ∧ Forall (fun f => strptime cleaned_date f = None) date_formats).
Proof.
  split.
  - rewrite calculate_duration_parsed.
    destruct (parsed_date published_date) as [pub|]; [|done].
    split; [|done]. intros [= Hb]. by apply bucket_not_unknown in Hb.
  - unfold parsed_date.
    destruct (clean_date_string published_date) as [c|] eqn:Hc.
    + destruct c as [|a c]; simpl.
      * split; [auto|done].
      * rewrite parse_published_None. split.
        -- intros [? ?]. right. right. eauto.
        -- intros [->|[[=]|(c' & [= <-] & ? & ?)]]; [done|done].
    + apply clean_date_string_None in Hc as ->. split; [auto|done].
Qed.

(** X13: of two dates read in the same zone and not in the future, the
    older one never gets the fresher label. *)
Theorem older_date_never_fresher `{World} (s1 s2 : string)
    (p1 p2 : datetime) :
  parsed_date s1 = Some p1 → parsed_date s2 = Some p2 →
  tz p1 = tz p2 →
  instant p1 ≤ instant p2 ≤ instant (datetime_now (tz p2)) →
  ∃ l1 l2,
    calculate_duration s1 = Ok l1 ∧ calculate_duration s2 = Ok l2
    ∧ (label_rank l2 ≤ label_rank l1)%nat.
Proof.
  intros H1 H2 Htz Hle. rewrite !calculate_duration_parsed, H1, H2, Htz.
  do 2 eexists. split_and!; [done..|].
  apply bucket_mono. unfold whole_days. split.
  - apply Z.div_pos; lia.
  - apply Z_div_le; lia.
Qed.

Lemma older_date_never_fresher_witness :
  ∃ l1 l2,
    @calculate_duration Sample.world "2022-01-01" = Ok l1
    ∧ @calculate_duration Sample.world "2024-06-01" = Ok l2
    ∧ (label_rank l2 ≤ label_rank l1)%nat.
Proof.
  apply (@older_date_never_fresher Sample.world "2022-01-01" "2024-06-01"
           (date 2022 1 1) (date 2024 6 1));
    [reflexivity | reflexivity | reflexivity | vm_compute; split; discriminate].
Defined.

Section CleanAgain.
Import Words.

(** On a collapsed string, [split] and [join] undo each other. *)
Lemma join_split_from (s : string) :
  single_spaced s = true →
  ∀ word, no_space word = true →
          truthy word = true ∨ starts_with_space s = false →
          join " " (split_from word s) = word +:+ s.
Proof.
  induction s as [|c s IH]; intros Hs word Hword Hstart.
  - simpl. rewrite app_nil_r_s. by destruct word.
  - simpl in Hs. apply andb_true_iff in Hs as [Hc Hs]. simpl.
    destruct (isspace c) eqn:Hsp.
    + apply andb_true_iff in Hc as [[Hc Ht]%andb_true_iff Hn%negb_true_iff].
      destruct Hstart as [Hw|Hw]; [|simpl in Hw; congruence].
      rewrite Hw. simpl.
      specialize (IH Hs EmptyString eq_refl (or_intror Hn)).
      rewrite app_nil_l_s in IH.
      apply N.eqb_eq in Hc.
      assert (c = " "%char) as ->.
      { apply (f_equal ascii_of_N) in Hc. unfold code in Hc.
        by rewrite ascii_N_embedding in Hc. }
      destruct (split_from EmptyString s) as [|w ws] eqn:Hsplit.
      * simpl in IH. subst s. done.
      * change (join " " (word :: w :: ws))
          with (word +:+ " " +:+ join " " (w :: ws)).
        by rewrite IH.
    + rewrite IH; [by rewrite app_assoc_s|done|by apply no_space_snoc|].
      left. destruct word; done.
Qed.

Lemma join_split (s : string) :
  collapsed s = true → join " " (split s) = s.
Proof.
  unfold collapsed. intros [Hstart%negb_true_iff Hs]%andb_true_iff.
  unfold split. rewrite join_split_from; auto.
Qed.

End CleanAgain.

(** X14: cleaning leaves a clean date string as it is.  A string that is
    not empty, has its whitespace collapsed and trimmed, holds no
    standalone timezone abbreviation and does not start with a weekday
    token and its comma reaches the parsers unchanged. *)
Theorem clean_date_string_keeps_clean (date_str : string) :
  date_str ≠ EmptyString →
  Words.collapsed date_str = true →
  Words.has_standalone_tz None date_str = false →
  (∀ letters rest,
      date_str = letters +:+ "," +:+ rest →
      Words.weekday_token letters = false) →
  clean_date_string date_str = Some date_str.
Proof.
  intros Hne Hcol Htz Hday. unfold clean_date_string.
  destruct date_str as [|c s]; [done|]. simpl negb. cbv iota.
  rewrite sub_weekday_other by done.
  unfold Re.sub_tz. rewrite sub_tz_from_id by done.
  rewrite join_split by done. by rewrite strip_collapsed.
Qed.

Lemma clean_date_string_keeps_clean_witness :
  clean_date_string "2024-06-03 14:00:00 +0530"
  = Some "2024-06-03 14:00:00 +0530".
Proof.
  apply clean_date_string_keeps_clean; [done|reflexivity|reflexivity|].
  intros [|c letters] rest Heq; [done|].
  rewrite app_cons in Heq. injection Heq as <- _.
  unfold Words.weekday_token. cbn [Html.all_chars].
  change (ascii_letter "2") with false. by rewrite andb_false_r.
Defined.

(** ** More on deduplication *)

Section KeepFirstMore.
Variable subset : list string.
Implicit Types (seen : gset (list (option string))) (l : list Row).

(** Keeping first occurrences twice is keeping them once, with both sets of
    keys seen. *)
Lemma keep_first_keep_first seen seen' l :
  keep_first subset seen (keep_first subset seen' l)
  = keep_first subset (seen ∪ seen') l.
Proof.
  revert seen seen'. induction l as [|r l IH]; intros seen seen'; [done|].
  rewrite !(keep_first_cons subset _ r l).
  destruct (decide (subset_key subset r ∈ seen')) as [Hin'|Hout'].
  - rewrite !bool_decide_eq_true_2 by set_solver. apply IH.
  - rewrite (bool_decide_eq_false_2 (_ ∈ seen')) by done.
    rewrite keep_first_cons.
    destruct (decide (subset_key subset r ∈ seen)) as [Hin|Hout].
    + rewrite !bool_decide_eq_true_2 by set_solver.
      rewrite IH. f_equal. set_solver.
    + rewrite !bool_decide_eq_false_2 by set_solver.
      rewrite IH. do 2 f_equal. set_solver.
Qed.

(** Rows whose keys were all seen are all dropped. *)
Lemma keep_first_all_seen seen l :
  (∀ r, r ∈ l → subset_key subset r ∈ seen) → keep_first subset seen l = [].
Proof.
  induction l as [|r l IH]; intros Hseen; [done|].
  rewrite keep_first_cons, bool_decide_eq_true_2 by (apply Hseen; by left).
  apply IH. intros; apply Hseen; by right.
Qed.

End KeepFirstMore.

Section DeduplicatedMore.

Lemma deduplicated_id (entries : list Entry) :
  NoDup (title_link <$> entries) → deduplicated entries = entries.
Proof.
  intros Hnd. unfold deduplicated. rewrite keep_first_id.
  - apply entry_as_row.
  - rewrite keys_of_entries. by apply (NoDup_fmap_2 pair_key).
  - set_solver.
Qed.

Lemma remove_duplicates_deduplicated (entries : list Entry) :
  ∃ df, remove_duplicates entries = Ok df
        ∧ to_dict_records df = deduplicated entries.
Proof. eexists. split; [apply remove_duplicates_rows|done]. Qed.

Lemma deduplicated_app (l1 l2 : list Entry) :
  deduplicated (l1 ++ l2)
  = deduplicated l1
    ++ (entry <$> keep_first ["Title"; "Link"]
                    (list_to_set (subset_key ["Title"; "Link"]
                                    <$> ((fun e => mk_row e None) <$> l1)) ∪ ∅)
                    ((fun e => mk_row e None) <$> l2)).
Proof.
  unfold deduplicated. by rewrite fmap_app, keep_first_app, fmap_app.
Qed.

End DeduplicatedMore.

(** X15: the batch that [remove_duplicates] leaves has as many entries as
    there are distinct (Title, Link) pairs in what was collected; it is the
    whole collection exactly when no pair occurs twice. *)
Theorem remove_duplicates_counts_pairs (entries : list Entry) :
  ∃ df,
    remove_duplicates entries = Ok df
    ∧ length (to_dict_records df)
      = size (list_to_set (title_link <$> entries) : gset (string * string))
    ∧ (length (to_dict_records df) ≤ length entries)%nat
    ∧ (to_dict_records df = entries ↔ NoDup (title_link <$> entries)).
Proof.
  destruct (remove_duplicates_deduplicated entries) as (df & Hdf & Hbatch).
  exists df. rewrite Hbatch. split_and!; [done| | |].
  - apply length_deduplicated.
  - apply sublist_length, deduplicated_sublist.
  - split.
    + intros Heq. rewrite <- Heq at 1. apply deduplicated_NoDup.
    + apply deduplicated_id.
Qed.

(** X16: deduplicating the parts of a collection before putting them
    together changes nothing in the batch: the batch of two lists one after
    the other is the batch of their two batches one after the other. *)
Theorem remove_duplicates_of_parts (l1 l2 : list Entry) :
  ∃ df1 df2 df,
    remove_duplicates l1 = Ok df1 ∧ remove_duplicates l2 = Ok df2
    ∧ remove_duplicates (l1 ++ l2) = Ok df
    ∧ ∃ df',
        remove_duplicates (to_dict_records df1 ++ to_dict_records df2) = Ok df'
        ∧ to_dict_records df' = to_dict_records df.
Proof.
  destruct (remove_duplicates_deduplicated l1) as (df1 & H1 & E1).
  destruct (remove_duplicates_deduplicated l2) as (df2 & H2 & E2).
  destruct (remove_duplicates_deduplicated (l1 ++ l2)) as (df & H3 & E3).
  destruct (remove_duplicates_deduplicated
              (to_dict_records df1 ++ to_dict_records df2))
    as (df' & H4 & E4).
  exists df1, df2, df. split_and!; [done..|].
  exists df'. split; [done|]. rewrite E4, E3, E1, E2.
  rewrite !deduplicated_app.
  rewrite (deduplicated_id (deduplicated l1)) by apply deduplicated_NoDup.
  f_equal. f_equal. unfold deduplicated at 2.
  rewrite as_row_entry.
  - rewrite keep_first_keep_first. f_equal.
    apply set_eq. intros k.
    rewrite !elem_of_union, !elem_of_list_to_set, !keys_of_entries.
    assert (k ∈ pair_key <$> (title_link <$> deduplicated l1)
            ↔ k ∈ pair_key <$> (title_link <$> l1)) as ->; [|set_solver].
    split.
    + intros (p & -> & (e & -> & He)%list_elem_of_fmap)%list_elem_of_fmap.
      do 2 apply list_elem_of_fmap_2.
      by apply (elem_of_sublist (deduplicated l1)), deduplicated_sublist.
    + intros (p & -> & (e & -> & He)%list_elem_of_fmap)%list_elem_of_fmap.
      apply list_elem_of_fmap_2. by apply deduplicated_covers.
  - apply (Forall_sublist _ _ ((fun e => mk_row e None) <$> l2));
      [apply keep_first_sublist|].
    by apply Forall_fmap, Forall_true.
Qed.



(** ** A source listed twice *)

Section ListedTwice.
Context `{World}.

Lemma all_entries_of_app (F1 F2 : list Feed) :
  all_entries_of (F1 ++ F2) = all_entries_of F1 ++ all_entries_of F2.
Proof. unfold all_entries_of. by rewrite fmap_app, concat_app. Qed.

Lemma all_entries_of_cons (f : Feed) (F : list Feed) :
  all_entries_of (f :: F) = feed_entries f ++ all_entries_of F.
Proof. done. Qed.

(** The title and the link of an entry come from the item alone. *)
Lemma entry_of_pair (f1 f2 : Feed) (item : Node) :
  title_link <$> entry_of f2 item = title_link <$> entry_of f1 item.
Proof.
  unfold entry_of, parse_item.
  destruct (calculate_duration (item_published item)) as [d|]; [|done].
  by destruct (truthy (item_title item) && truthy (item_link item)).
Qed.

Lemma entry_of_title_link (f1 f2 : Feed) (items : list Node) :
  title_link <$> omap (entry_of f2) items
  = title_link <$> omap (entry_of f1) items.
Proof.
  induction items as [|item items IH]; [done|]. csimpl.
  pose proof (entry_of_pair f1 f2 item) as Hpair.
  destruct (entry_of f1 item) as [e1|], (entry_of f2 item) as [e2|];
    try discriminate Hpair; [|exact IH].
  assert (title_link e2 = title_link e1) as Heq
    by (change (Some (title_link e2) = Some (title_link e1)) in Hpair;
        congruence).
  by rewrite !fmap_cons, IH, Heq.
Qed.

Lemma same_url_same_pairs (f1 f2 : Feed) :
  url f1 = url f2 →
  title_link <$> feed_entries f2 = title_link <$> feed_entries f1.
Proof.
  intros Hurl. unfold feed_entries. rewrite Hurl.
  destruct (is_url_accessible (url f2)); [|done].
  destruct (fetch_soup (url f2)) as [soup|]; [|done].
  apply entry_of_title_link.
Qed.

(** Entries whose pairs all occurred before them leave no trace in the
    deduplicated batch. *)
Lemma deduplicated_skip_seen (l1 l2 l3 : list Entry) :
  (∀ e, e ∈ l2 → title_link e ∈ title_link <$> l1) →
  deduplicated (l1 ++ l2 ++ l3) = deduplicated (l1 ++ l3).
Proof.
  intros Hseen. rewrite !deduplicated_app. f_equal. f_equal.
  rewrite fmap_app, keep_first_app.
  assert (∀ r, r ∈ (fun e => mk_row e None) <$> l2 →
               subset_key ["Title"; "Link"] r
               ∈ (list_to_set (subset_key ["Title"; "Link"]
                    <$> ((fun e => mk_row e None) <$> l1)) ∪ ∅
                  : gset (list (option string)))) as Hkeys.
  { intros r (e & -> & He)%list_elem_of_fmap.
    apply elem_of_union. left. apply elem_of_list_to_set.
    rewrite keys_of_entries.
    change (subset_key ["Title"; "Link"] (mk_row e None))
      with (pair_key (title_link e)).
    apply list_elem_of_fmap_2. by apply Hseen. }
  rewrite keep_first_all_seen by done. simpl. f_equal.
  apply set_eq. intros k. rewrite elem_of_union. split; [|by right].
  intros [Hk|Hk]; [|done].
  apply elem_of_list_to_set in Hk.
  apply list_elem_of_fmap in Hk as (r & -> & Hr). by apply Hkeys.
Qed.

Lemma feed_listed_again (F1 F2 F3 : list Feed) (f1 f2 : Feed) :
  url f1 = url f2 →
  deduplicated (all_entries_of (F1 ++ f1 :: F2 ++ f2 :: F3))
  = deduplicated (all_entries_of (F1 ++ f1 :: F2 ++ F3)).
Proof.
  intros Hurl.
  replace (F1 ++ f1 :: F2 ++ f2 :: F3) with ((F1 ++ f1 :: F2) ++ f2 :: F3)
    by by rewrite <- app_assoc.
  replace (F1 ++ f1 :: F2 ++ F3) with ((F1 ++ f1 :: F2) ++ F3)
    by by rewrite <- app_assoc.
  rewrite !(all_entries_of_app (F1 ++ f1 :: F2)), all_entries_of_cons.
  apply deduplicated_skip_seen. intros e He.
  apply (list_elem_of_fmap_2 title_link) in He.
  rewrite (same_url_same_pairs f1 f2 Hurl) in He.
  apply list_elem_of_fmap in He as (e' & -> & He').
  apply list_elem_of_fmap_2, elem_of_all_entries_of.
  exists f1. split; [|done]. apply elem_of_app. right. by left.
Qed.

End ListedTwice.

(** X18: a source listed a second time under the address of an earlier one
    gives nothing to the batch, whatever country and source name it is
    listed under: with one document behind one address during a run, every
    (Title, Link) pair of the second listing was seen in the first, so the
    deduplicated batch is that of the list without the second listing, and
    each of its entries has the country and the source of a listing other
    than the second. *)
Theorem feed_listed_twice `{World} (F1 F2 F3 : list Feed) (f1 f2 : Feed) :
  url f1 = url f2 →
  ∃ df df',
    remove_duplicates (all_entries_of (F1 ++ f1 :: F2 ++ f2 :: F3)) = Ok df
    ∧ remove_duplicates (all_entries_of (F1 ++ f1 :: F2 ++ F3)) = Ok df'
    ∧ to_dict_records df = to_dict_records df'
    ∧ Forall (fun e => ∃ f, f ∈ F1 ++ f1 :: F2 ++ F3
                           ∧ Country e = country f ∧ Source e = source f)
        (to_dict_records df).
Proof.
  intros Hurl.
  destruct (remove_duplicates_deduplicated
              (all_entries_of (F1 ++ f1 :: F2 ++ f2 :: F3)))
    as (df & Hdf & Hbatch).
  destruct (remove_duplicates_deduplicated
              (all_entries_of (F1 ++ f1 :: F2 ++ F3)))
    as (df' & Hdf' & Hbatch').
  exists df, df'. rewrite Hbatch, Hbatch', (feed_listed_again _ _ _ _ _ Hurl).
  split_and!; [done..|].
  apply Forall_forall. intros e He.
  assert (e ∈ all_entries_of (F1 ++ f1 :: F2 ++ F3)) as He'
    by (eapply elem_of_sublist; [exact He|apply deduplicated_sublist]).
  apply elem_of_all_entries_of in He' as (f & Hf & Hin).
  destruct (feed_entries_shape f e Hin) as (item & Heq & _).
  exists f. rewrite Heq. done.
Qed.

Lemma feed_listed_twice_witness :
  ∃ df df',
    remove_duplicates
      (@all_entries_of Sample.world
         [Sample.feed; mk_feed "FR" "AFP" (url Sample.feed)]) = Ok df
    ∧ remove_duplicates (@all_entries_of Sample.world [Sample.feed]) = Ok df'
    ∧ to_dict_records df = to_dict_records df'.
Proof.
  destruct (@feed_listed_twice Sample.world [] [] [] Sample.feed
              (mk_feed "FR" "AFP" (url Sample.feed)))
    as (df & df' & Hdf & Hdf' & Heq & _); [reflexivity|].
  by exists df, df'.
Defined.

